(** * github-contributions-tui: the contribution grid and the Bubble Tea model

    A shallow embedding of the Go program: the [Update] reducer of the
    Bubble Tea model, the [fetchData] command with its date-to-grid loop, and
    the grid part of [View].  The repository carries two designs of the grid:

    - [Rev12], [main.go]: a [12][31] array, rows indexed by the calendar
      month and columns by the day of the month minus one;
    - [Rev13], the revisions with [numMonths = 13] and [numDays = 32]: rows
      indexed by the month offset from [time.Now().AddDate(-1, 0, 0)],
      column 0 holding the row's year-month label.

    [Update] is the same text in every revision. *)

From Stdlib Require Import ZArith Lia Bool Ascii String DecimalString.
From stdpp Require Import base list.

Local Open Scope string_scope.
Local Open Scope Z_scope.

(** ** Go values *)

(** Go's [error] interface: [None] is [nil], [Some msg] an error value. *)
Definition error := option string.

(** A Go call returning [(T, error)]. *)
Inductive result (A : Type) : Type :=
| Ok (a : A)
| Err (e : string).
Arguments Ok {A} a.
Arguments Err {A} e.

(** ** The [time] package, as far as [fetchData] uses it *)

Module GoTime.

(** The calendar fields of a [time.Time] read by [Year()], [Month()] and
    [Day()]. *)
Record Time : Type := mkTime { Year : Z; Month : Z; Day : Z }.

Definition isLeap (year : Z) : bool :=
  (year mod 4 =? 0) && (negb (year mod 100 =? 0) || (year mod 400 =? 0)).

Definition daysIn (month year : Z) : Z :=
  if (month =? 2) && isLeap year then 29
  else match month with
       | 2 => 28
       | 4 | 6 | 9 | 11 => 30
       | _ => 31
       end.

Definition isDigit (c : ascii) : bool :=
  (48 <=? Z.of_nat (nat_of_ascii c)) && (Z.of_nat (nat_of_ascii c) <=? 57).

Definition digit (c : ascii) : Z := Z.of_nat (nat_of_ascii c) - 48.

Definition isDash (c : ascii) : bool := Ascii.eqb c "-"%char.

(** [time.Parse("2006-01-02", value)]: four digits, a dash, two digits, a
    dash, two digits and nothing else; the month must lie in 1..12 and the
    day in 1..daysIn(month, year). The error texts are shortened. *)
Definition Parse (value : string) : result Time :=
  match list_ascii_of_string value with
  | [y1; y2; y3; y4; s1; m1; m2; s2; d1; d2] =>
      if forallb isDigit [y1; y2; y3; y4; m1; m2; d1; d2]
         && isDash s1 && isDash s2
      then
        let year := digit y1 * 1000 + digit y2 * 100 + digit y3 * 10 + digit y4 in
        let month := digit m1 * 10 + digit m2 in
        let day := digit d1 * 10 + digit d2 in
        if (month <? 1) || (12 <? month) then Err "month out of range"
        else if (day <? 1) || (daysIn month year <? day) then Err "day out of range"
        else Ok (mkTime year month day)
      else Err "cannot parse value as 2006-01-02"
  | _ => Err "cannot parse value as 2006-01-02"
  end.

Definition digitChar (d : Z) : ascii := ascii_of_nat (Z.to_nat (48 + d)).

(** [t.Format("200601")]: the year zero-padded to four digits followed by
    the month zero-padded to two. *)
Definition Format200601 (t : Time) : string :=
  string_of_list_ascii
    [ digitChar (Year t / 1000 mod 10); digitChar (Year t / 100 mod 10);
      digitChar (Year t / 10 mod 10); digitChar (Year t mod 10);
      digitChar (Month t / 10 mod 10); digitChar (Month t mod 10) ].

(** [t.AddDate(-1, 0, 0)]: the same month and day one year earlier,
    normalised the way [time.Date] does when the day does not exist there
    (29 February moves to 1 March). *)
Definition AddDateMinusOneYear (t : Time) : Time :=
  let year := Year t - 1 in
  if Day t <=? daysIn (Month t) year
  then mkTime year (Month t) (Day t)
  else mkTime year (Month t + 1) (Day t - daysIn (Month t) year).

(** [t.Format("2006-01-02")], for the years of four digits. *)
Definition Format20060102 (t : Time) : string :=
  string_of_list_ascii
    [ digitChar (Year t / 1000 mod 10); digitChar (Year t / 100 mod 10);
      digitChar (Year t / 10 mod 10); digitChar (Year t mod 10); "-"%char;
      digitChar (Month t / 10 mod 10); digitChar (Month t mod 10); "-"%char;
      digitChar (Day t / 10 mod 10); digitChar (Day t mod 10) ].

(** A calendar date with a year of four digits. *)
Definition validDate (t : Time) : bool :=
  (0 <=? Year t) && (Year t <=? 9999)
  && (1 <=? Month t) && (Month t <=? 12)
  && (1 <=? Day t) && (Day t <=? daysIn (Month t) (Year t)).


End GoTime.

(** ** [strconv.Atoi] *)

Module Strconv.

Definition maxInt : Z := 2 ^ 63 - 1.

Fixpoint digits (acc : Z) (s : list ascii) : option Z :=
  match s with
  | [] => Some acc
  | c :: rest =>
      if GoTime.isDigit c then digits (acc * 10 + GoTime.digit c) rest else None
  end.

(** An optional sign, then one or more decimal digits; the value must fit
    a 64-bit [int]. *)
Definition Atoi (s : string) : result Z :=
  let parse (neg : bool) (body : list ascii) : result Z :=
    match body with
    | [] => Err "invalid syntax"
    | _ => match digits 0 body with
           | None => Err "invalid syntax"
           | Some n =>
               let v := if neg then - n else n in
               if (v <? - maxInt - 1) || (maxInt <? v)
               then Err "value out of range" else Ok v
           end
    end in
  match list_ascii_of_string s with
  | [] => Err "invalid syntax"
  | c :: rest =>
      if Ascii.eqb c "-"%char then parse true rest
      else if Ascii.eqb c "+"%char then parse false rest
      else parse false (c :: rest)
  end.

End Strconv.

(** ** The contributions array and the messages around it *)

(** A Go [[rows][cols]int] array: [rows] lists of [cols] integers. *)
Abbreviation Grid := (list (list Z)).

(** [var contributions [rows][cols]int]: every cell holds Go's zero value. *)
Definition zeroGrid (rows cols : nat) : Grid := replicate rows (replicate cols 0).

(** [g[i][j]], [None] when an index is out of range. *)
Definition cell (g : Grid) (i j : Z) : option Z :=
  if (0 <=? i) && (0 <=? j)
  then row ← g !! Z.to_nat i; row !! Z.to_nat j
  else None.

(** [fetchMsg], in a module of its own: its fields carry the names of two
    fields of [model]. *)
Module fetchMsg.
Record t : Type := mk { contributions : Grid; err : error }.
End fetchMsg.

Record contributionDay : Type :=
  mkDay { Date : string; ContributionCount : Z }.

Record week : Type := mkWeek { ContributionDays : list contributionDay }.

(** What the command closure reads from outside the program: the calendar
    date of [time.Now()] when [startDate] is taken, and the reply to the
    GraphQL request, either the error of [http.NewRequest], [Do],
    [io.ReadAll] or [json.Unmarshal], or the decoded [Weeks]. *)
Record World : Type := mkWorld { now : GoTime.Time; reply : result (list week) }.

(** The two dates [fetchData] puts into the request. *)
Definition currentDate (w : World) : string := GoTime.Format20060102 (now w).

Definition fromDate (w : World) : string :=
  GoTime.Format20060102 (GoTime.AddDateMinusOneYear (now w)).

Definition quote : string := String (ascii_of_nat 34) "".
Definition backslash : string := String (ascii_of_nat 92) "".

(** The body of the request, [fmt.Sprintf] of the raw literal with
    [username], [fromDate] and [currentDate]. *)
Definition query (username : string) (w : World) : string :=
  "{ " ++ quote ++ "query" ++ quote ++ ": " ++ quote
  ++ "query { user(login: " ++ backslash ++ quote ++ username ++ backslash ++ quote
  ++ ") { contributionsCollection(from: " ++ backslash ++ quote
  ++ fromDate w ++ "T00:00:00Z" ++ backslash ++ quote
  ++ ", to: " ++ backslash ++ quote ++ currentDate w ++ "T23:59:59Z"
  ++ backslash ++ quote
  ++ ") { contributionCalendar { weeks { contributionDays { date, contributionCount } } } } } }"
  ++ quote ++ " }".

(** How the closure ends: it returns a [fetchMsg], or an index expression
    panics. *)
Inductive outcome : Type :=
| Returns (f : fetchMsg.t)
| Panics.

(** Control flow inside the closure: fall through with a value, or leave. *)
Inductive flow (A : Type) : Type :=
| Next (a : A)
| Exit (o : outcome).
Arguments Next {A} a.
Arguments Exit {A} o.

Definition flow_bind {A B : Type} (c : flow A) (k : A → flow B) : flow B :=
  match c with
  | Next a => k a
  | Exit o => Exit o
  end.

Notation "'let!' x ':=' c 'in' k" := (flow_bind c (fun x => k))
  (at level 10, x name, c at level 100, k at level 200).

(** [g[i][j] = v] on a fixed array: an index out of range panics. *)
Definition store (g : Grid) (i j v : Z) : flow Grid :=
  match g !! Z.to_nat i with
  | Some row =>
      if (0 <=? i) && (0 <=? j) && (j <? Z.of_nat (length row))
      then Next (<[Z.to_nat i := <[Z.to_nat j := v]> row]> g)
      else Exit Panics
  | None => Exit Panics
  end.

(** [for _, x := range xs { body }] over a loop-carried state. *)
Fixpoint range {A S : Type} (body : S → A → flow S) (s : S) (xs : list A) : flow S :=
  match xs with
  | [] => Next s
  | x :: rest => let! s' := body s x in range body s' rest
  end.

(** ** [main.go]: the [12][31] revision *)

Module Rev12.

Definition numMonths : nat := 12.
Definition numDays : nat := 31.

(** [fetchMsg{err: err}]. *)
Definition failure (e : string) : fetchMsg.t :=
  fetchMsg.mk (zeroGrid numMonths numDays) (Some e).

(** The body of the inner loop of [fetchData]. *)
Definition dayBody (contributions : Grid) (day : contributionDay) : flow Grid :=
  match GoTime.Parse (Date day) with
  | Err e => Exit (Returns (failure e))
  | Ok date =>
      let month := GoTime.Month date - 1 in
      let dayOfMonth := GoTime.Day date - 1 in
      store contributions month dayOfMonth (ContributionCount day)
  end.

(** From [var contributions] to the end of the two loops. *)
Definition fillContributions (weeks : list week) : flow Grid :=
  range (fun g w => range dayBody g (ContributionDays w))
        (zeroGrid numMonths numDays) weeks.

(** The closure returned by [fetchData(username)], run in a world. *)
Definition fetchData (username : string) (w : World) : outcome :=
  match reply w with
  | Err e => Returns (failure e)
  | Ok weeks =>
      match fillContributions weeks with
      | Next g => Returns (fetchMsg.mk g None)
      | Exit o => o
      end
  end.

End Rev12.

(** ** The [13][32] revisions *)

Module Rev13.

Definition numMonths : nat := 13.
Definition numDays : nat := 32.

Definition failure (e : string) : fetchMsg.t :=
  fetchMsg.mk (zeroGrid numMonths numDays) (Some e).

(** [(date.Year()-startDate.Year())*12 + int(date.Month()) - int(startDate.Month())].
    Years of a [time.Time] are far inside the 64-bit [int], so the
    arithmetic is that of the integers. *)
Definition monthIndexOf (startDate date : GoTime.Time) : Z :=
  (GoTime.Year date - GoTime.Year startDate) * 12
  + GoTime.Month date - GoTime.Month startDate.

(** The body of the inner loop of [fetchData]. *)
Definition dayBody (startDate : GoTime.Time)
    (contributions : Grid) (day : contributionDay) : flow Grid :=
  match GoTime.Parse (Date day) with
  | Err e => Exit (Returns (failure e))
  | Ok date =>
      match Strconv.Atoi (GoTime.Format200601 date) with
      | Err e => Exit (Returns (failure e))
      | Ok yearMonth =>
          let monthIndex := monthIndexOf startDate date in
          if (monthIndex <? 0) || (monthIndex >=? Z.of_nat numMonths)
          then Next contributions
          else
            let dayOfMonth := GoTime.Day date in
            let! g := store contributions monthIndex dayOfMonth (ContributionCount day) in
            store g monthIndex 0 yearMonth
      end
  end.

(** From [var contributions] to the end of the two loops. *)
Definition fillContributions (startDate : GoTime.Time) (weeks : list week) : flow Grid :=
  range (fun g w => range (dayBody startDate) g (ContributionDays w))
        (zeroGrid numMonths numDays) weeks.

(** The closure returned by [fetchData(username)], run in a world. *)
Definition fetchData (username : string) (w : World) : outcome :=
  match reply w with
  | Err e => Returns (failure e)
  | Ok weeks =>
      let startDate := GoTime.AddDateMinusOneYear (now w) in
      match fillContributions startDate weeks with
      | Next g => Returns (fetchMsg.mk g None)
      | Exit o => o
      end
  end.

End Rev13.

(** ** Messages, commands and the text input *)

Inductive Msg : Type :=
| KeyMsg (key : string)        (* a key press; [key] is [msg.String()] *)
| FetchMsg (f : fetchMsg.t)    (* the result of a [fetchData] command *)
| OtherMsg (tag : nat).        (* any other message of the runtime *)

(** Commands of the text input (cursor blink, paste). *)
Inductive InputCmd : Type := Blink | Paste.

Inductive Cmd : Type :=
| CmdNil                          (* [nil] *)
| CmdQuit                         (* [bubbletea.Quit] *)
| CmdFetch (username : string)    (* [fetchData(username)] *)
| CmdInput (cs : list InputCmd).  (* what [textinput.Model.Update] returned *)

(** The [textinput.Model] of the bubbles library, through the methods the
    program calls. [tiNew] is the input configured by [initialModel]. *)
Class TextInput (TI : Type) : Type := {
  tiNew : TI;
  tiValue : TI → string;
  tiSetValue : string → TI → TI;
  tiUpdate : TI → Msg → TI * list InputCmd;
  tiView : TI → string
}.

(** A one-line input that satisfies the interface: a printable key is
    appended to the value, every other message leaves it. *)
Definition lineUpdate (value : string) (msg : Msg) : string * list InputCmd :=
  match msg with
  | KeyMsg key => if (String.length key =? 1)%nat then (value ++ key, []) else (value, [])
  | _ => (value, [])
  end.

#[export] Instance lineInput : TextInput string := {
  tiNew := "";
  tiValue v := v;
  tiSetValue s _ := s;
  tiUpdate := lineUpdate;
  tiView v := "> " ++ v
}.

(** ** The model and [Update] *)

Record model (TI : Type) : Type := mkModel {
  contributions : Grid;
  username : TI;
  submittedName : string;
  err : error
}.
Arguments mkModel {TI}.
Arguments contributions {TI}.
Arguments username {TI}.
Arguments submittedName {TI}.
Arguments err {TI}.

Section Program.
Context {TI : Type} `{TextInput TI}.

(** [model{username: ti}]: the other fields hold zero values. *)
Definition initialModel (rows cols : nat) : model TI :=
  mkModel (zeroGrid rows cols) tiNew "" None.

(** The last two lines of [Update]:
    [m.username, cmd = m.username.Update(msg); return m, cmd]. *)
Definition updateInput (m : model TI) (msg : Msg) : model TI * Cmd :=
  let '(ti, cmd) := tiUpdate (username m) msg in
  (mkModel (contributions m) ti (submittedName m) (err m), CmdInput cmd).

Definition Update (m : model TI) (msg : Msg) : model TI * Cmd :=
  match msg with
  | KeyMsg key =>
      if String.eqb key "ctrl+c" || String.eqb key "esc" then (m, CmdQuit)
      else if String.eqb key "enter" then
        if negb (String.eqb (tiValue (username m)) "") then
          let m1 := mkModel (contributions m) (username m)
                            (tiValue (username m)) (err m) in
          let m2 := mkModel (contributions m1) (tiSetValue "" (username m1))
                            (submittedName m1) (err m1) in
          (m2, CmdFetch (submittedName m2))
        else updateInput m msg
      else updateInput m msg
  | FetchMsg f =>
      match fetchMsg.err f with
      | Some e =>
          (mkModel (contributions m) (username m) (submittedName m) (Some e), CmdNil)
      | None =>
          updateInput
            (mkModel (fetchMsg.contributions f) (username m) (submittedName m) (err m))
            msg
      end
  | OtherMsg _ => updateInput m msg
  end.

End Program.

(** ** [View] *)

Definition nl : string := String (ascii_of_nat 10) "".

(** [fmt.Sprintf("%<width>d", v)]: the decimal numeral, padded with spaces on
    the left up to [width]. *)
Definition Sprintf_d (width : nat) (v : Z) : string :=
  let numeral := NilZero.string_of_int (Z.to_int v) in
  string_of_list_ascii (replicate (width - String.length numeral) " "%char) ++ numeral.

(** [g[month][day]] inside the index loops of [View]; an array of the
    declared shape has every cell the loops read. *)
Definition at_ (g : Grid) (month day : nat) : Z :=
  default 0 (cell g (Z.of_nat month) (Z.of_nat day)).

Module View12.
Section View.
Context {TI : Type} `{TextInput TI}.

Definition cellText (v : Z) : string :=
  if negb (v =? 0) then "[" ++ Sprintf_d 2 v ++ "] " else "[  ] ".

Definition rowText (g : Grid) (month : nat) : string :=
  String.concat "" (map (fun day => cellText (at_ g month day)) (seq 0 Rev12.numDays)) ++ nl.

Definition View (m : model TI) : string :=
  match err m with
  | Some e => "Error: " ++ e ++ nl
  | None =>
      ("Github Contributuions" ++ nl ++ nl ++ tiView (username m) ++ nl ++ nl
         ++ "(ctrl+c to escape)" ++ nl ++ nl) ++ nl ++ nl
      ++ "Contributions: " ++ submittedName m ++ nl
      ++ String.concat "" (map (rowText (contributions m)) (seq 0 Rev12.numMonths))
  end.
End View.
End View12.

(** The three [lipgloss] styles of the later revisions. *)
Inductive Style : Type := darkGrey | lightGrey | contributionColor.

Module View13.
Section View.
Context {TI : Type} `{TextInput TI}.
(** [style.Render(text)], which depends on the terminal. *)
Variable Render : Style → string → string.

Definition cellText (day : nat) (v : Z) : string :=
  if (0 <? day)%nat then
    if negb (v =? 0)
    then Render darkGrey "" ++ Render contributionColor (Sprintf_d 2 v)
         ++ Render darkGrey "| "
    else Render darkGrey " ✗| "
  else
    if negb (v =? 0)
    then "|" ++ Render lightGrey (Sprintf_d 6 v) ++ "| "
    else "|      | ".

Definition headerText (day : nat) : string :=
  if (day =? 0)%nat then Render darkGrey "|      | "
  else Render lightGrey (Sprintf_d 2 (Z.of_nat day) ++ "| ").

Definition rowText (g : Grid) (month : nat) : string :=
  String.concat "" (map (fun day => cellText day (at_ g month day)) (seq 0 Rev13.numDays)) ++ nl.

Definition View (m : model TI) : string :=
  match err m with
  | Some e => "Error: " ++ e ++ nl
  | None =>
      ("GitHub Contributions" ++ nl ++ nl ++ tiView (username m) ++ nl ++ nl
         ++ "(ctrl+c to escape)" ++ nl ++ nl)
      ++ "Contributions for : "
      ++ Render contributionColor (submittedName m ++ nl ++ nl) ++ nl
      ++ String.concat "" (map headerText (seq 0 Rev13.numDays)) ++ nl
      ++ String.concat "" (map (rowText (contributions m)) (seq 0 Rev13.numMonths))
  end.
End View.
End View13.

(** ** Phases of a run *)

(** The program stores no phase. The phase of a run is the one the
    specification's machine is in after the same messages: a submit that
    emits a fetch command enters [Fetching]; the first completion handled
    while [Fetching] leaves it for [Displaying] or [Failed]. *)
Inductive Phase : Type := AwaitingInput | Fetching | Displaying | Failed.

Definition nextPhase (p : Phase) (msg : Msg) (cmd : Cmd) : Phase :=
  match msg, cmd with
  | _, CmdFetch _ => Fetching
  | FetchMsg f, _ =>
      match p with
      | Fetching => match fetchMsg.err f with Some _ => Failed | None => Displaying end
      | _ => p
      end
  | _, _ => p
  end.

Section Run.
Context {TI : Type} `{TextInput TI}.

(** One turn of the event loop: [Update], with the phase carried along. *)
Definition step (s : model TI * Phase) (msg : Msg) : model TI * Phase :=
  let '(m, cmd) := Update (fst s) msg in (m, nextPhase (snd s) msg cmd).

(** The messages of a run, handled in order from the initial model. *)
Definition run (rows cols : nat) (msgs : list Msg) : model TI * Phase :=
  fold_left step msgs (initialModel rows cols, AwaitingInput).
End Run.

(** ** Shapes and labels *)

(** [g] has the shape of a [[rows][cols]int]. *)
Definition wfGrid (rows cols : nat) (g : Grid) : bool :=
  (length g =? rows)%nat && forallb (fun row => (length row =? cols)%nat) g.

(** The label of a row is the numeral [YYYYMM]: the digits before the last
    two are the year, the last two the month. *)
Definition decodeYearMonth (v : Z) : Z * Z := (v / 100, v mod 100).

(** A sample whose date parses and whose row would fall outside the
    thirteen months counted from [startDate]. *)
Definition outOfWindow (startDate : GoTime.Time) (day : contributionDay) : bool :=
  match GoTime.Parse (Date day) with
  | Ok date =>
      negb ((0 <=? Rev13.monthIndexOf startDate date)
            && (Rev13.monthIndexOf startDate date <? 13))
  | Err _ => false
  end.

(** The days of a reply, in the order the two loops visit them. *)
Definition daysOf (weeks : list week) : list contributionDay :=
  concat (map ContributionDays weeks).

(** The cell [main.go] stores a sample in, when its date parses. *)
Definition target12 (day : contributionDay) : option (Z * Z) :=
  match GoTime.Parse (Date day) with
  | Ok date => Some (GoTime.Month date - 1, GoTime.Day date - 1)
  | Err _ => None
  end.

(** The row of a sample in the later revisions, when its date parses and
    the row lies in the thirteen months. *)
Definition row13 (startDate : GoTime.Time) (day : contributionDay) : option (Z * GoTime.Time) :=
  match GoTime.Parse (Date day) with
  | Ok date =>
      if (0 <=? Rev13.monthIndexOf startDate date)
         && (Rev13.monthIndexOf startDate date <? 13)
      then Some (Rev13.monthIndexOf startDate date, date)
      else None
  | Err _ => None
  end.

(** The cell that receives the count, and the cell that receives the label. *)
Definition target13 (startDate : GoTime.Time) (day : contributionDay) : option (Z * Z) :=
  match row13 startDate day with
  | Some (monthIndex, date) => Some (monthIndex, GoTime.Day date)
  | None => None
  end.

Definition labelTarget13 (startDate : GoTime.Time) (day : contributionDay) : option (Z * Z) :=
  match row13 startDate day with
  | Some (monthIndex, _) => Some (monthIndex, 0)
  | None => None
  end.

(** The label a sample writes: [strconv.Atoi(date.Format("200601"))]. *)
Definition yearMonthOf (day : contributionDay) : Z :=
  match GoTime.Parse (Date day) with
  | Ok date => GoTime.Year date * 100 + GoTime.Month date
  | Err _ => 0
  end.

(** [f] holds on the [n] integers from [lo] on. *)
Fixpoint allFrom (n : nat) (lo : Z) (f : Z → bool) : bool :=
  match n with
  | O => true
  | S n' => f lo && allFrom n' (lo + 1) f
  end.

(** [%6d] of the label of a year and month prints what [Format("200601")]
    printed. *)
Definition labelShown (year month : Z) : bool :=
  String.eqb (Sprintf_d 6 (year * 100 + month))
             (GoTime.Format200601 (GoTime.mkTime year month 1)).

(** A cell of [main.go]'s view is five characters wide. *)
Definition cellFive (v : Z) : bool :=
  (String.length (View12.cellText v) =? 5)%nat.

(** The value of the last element of [xs] aimed at the cell [(i, j)]. *)
Fixpoint lastWrite {A : Type} (target : A → option (Z * Z)) (value : A → Z)
    (xs : list A) (i j : Z) : option Z :=
  match xs with
  | [] => None
  | x :: rest =>
      match lastWrite target value rest i j with
      | Some v => Some v
      | None =>
          match target x with
          | Some (i', j') => if (i' =? i) && (j' =? j) then Some (value x) else None
          | None => None
          end
      end
  end.

(** ** Sample inputs *)

(** A terminal without colours: [Render] returns the text. *)
Definition plainRender (_ : Style) (text : string) : string := text.

(** A clock reading of 20 May 2024; the anchor is 20 May 2023. *)
Definition may2024 : GoTime.Time := GoTime.mkTime 2024 5 20.

Definition inWindowDay : contributionDay := mkDay "2023-05-25" 4.
Definition oldDay : contributionDay := mkDay "2022-01-01" 7.
Definition zeroDay : contributionDay := mkDay "2023-05-25" 0.
Definition badDay : contributionDay := mkDay "2023-5-25" 4.
Definition firstDay : contributionDay := mkDay "2023-05-20" 3.
Definition lastDay : contributionDay := mkDay "2024-05-20" 9.

Definition sampleWeeks : list week := [mkWeek [inWindowDay; oldDay]].

Definition sampleWorld : World := mkWorld may2024 (Ok sampleWeeks).

(** The same reply read eleven days later, in the same month. *)
Definition sampleWorldLater : World := mkWorld (GoTime.mkTime 2024 5 31) (Ok sampleWeeks).


(** A grid with one count, as a fetch could return it. *)
Definition sampleGrid : Grid := <[0%nat := <[25%nat := 4]> (replicate 32 0)]> (zeroGrid 13 32).

(** The same grid with the label the later revisions add to the row. *)
Definition sampleGrid_labelled : Grid :=
  <[0%nat := <[0%nat := 202305]> (<[25%nat := 4]> (replicate 32 0))]> (zeroGrid 13 32).

(** What [main.go] builds from the anchor day (count 3), 25 May 2023
    (count 4) and the current day (count 9): the two ends share a cell. *)
Definition collidedGrid : Grid :=
  <[4%nat := <[24%nat := 4]> (<[19%nat := 9]> (replicate 31 0))]> (zeroGrid 12 31).

(** What the later revisions build from the anchor day and 25 May 2023. *)
Definition twoDayGrid : Grid :=
  <[0%nat := <[0%nat := 202305]> (<[20%nat := 3]> (<[25%nat := 4]> (replicate 32 0)))]>
    (zeroGrid 13 32).

(** A run with two overlapping fetches: the second submit happens before
    the first completion arrives. *)
Definition overlappingRun : list Msg :=
  [KeyMsg "a"; KeyMsg "enter"; KeyMsg "b"; KeyMsg "enter";
   FetchMsg (fetchMsg.mk sampleGrid None)].

(** A run with a failed fetch followed by a second submit. *)
Definition retryRun : list Msg :=
  [KeyMsg "a"; KeyMsg "enter"; FetchMsg (Rev13.failure "boom");
   KeyMsg "b"; KeyMsg "enter"].

(** * Properties *)

Example parse_ok : GoTime.Parse "2023-05-25" = Ok (GoTime.mkTime 2023 5 25).
Proof. reflexivity. Qed.

Example parse_bad_day : GoTime.Parse "2023-02-29" = Err "day out of range".
Proof. reflexivity. Qed.

Example atoi_format :
  Strconv.Atoi (GoTime.Format200601 (GoTime.mkTime 2023 5 25)) = Ok 202305.
Proof. reflexivity. Qed.

Example malformed_date_fails :
  Rev13.fetchData "octocat" (mkWorld may2024 (Ok [mkWeek [inWindowDay; badDay]]))
  = Returns (Rev13.failure "cannot parse value as 2006-01-02").
Proof. reflexivity. Qed.

(** The scenario of the specification: anchor 20 May 2023, a sample of
    25 May 2023 with count 4 and one of 1 January 2022 with count 7. *)
Example scenario_rev13 :
  Rev13.fetchData "octocat" sampleWorld
  = Returns (fetchMsg.mk sampleGrid_labelled None).
Proof. reflexivity. Qed.

Example scenario_rev12 :
  Rev12.fetchData "octocat" sampleWorld
  = Returns (fetchMsg.mk
               (<[0%nat := <[0%nat := 7]> (replicate 31 0)]>
                  (<[4%nat := <[24%nat := 4]> (replicate 31 0)]> (zeroGrid 12 31)))
               None).
Proof. reflexivity. Qed.

Example leap_day_anchor :
  GoTime.AddDateMinusOneYear (GoTime.mkTime 2024 2 29) = GoTime.mkTime 2023 3 1.
Proof. reflexivity. Qed.

(** ** The [time] and [strconv] models *)

Lemma isDigit_digit c : GoTime.isDigit c = true → 0 <= GoTime.digit c <= 9.
Proof. unfold GoTime.isDigit, GoTime.digit. lia. Qed.

Lemma daysIn_le_31 month year : GoTime.daysIn month year <= 31.
Proof.
  unfold GoTime.daysIn.
  destruct (_ && _); [lia|].
  destruct month as [|p|p]; try lia.
  do 4 (destruct p; try lia).
Qed.

(** A date accepted by [Parse] has a year of four digits, a month in 1..12
    and a day in 1..31. *)
Lemma Parse_range value date :
  GoTime.Parse value = Ok date →
  0 <= GoTime.Year date <= 9999
  ∧ 1 <= GoTime.Month date <= 12
  ∧ 1 <= GoTime.Day date <= 31.
Proof.
  unfold GoTime.Parse.
  destruct (list_ascii_of_string value) as [|y1 [|y2 [|y3 [|y4 [|s1 [|m1 [|m2 [|s2 [|d1 [|d2 [|x l]]]]]]]]]]];
    try discriminate.
  destruct (forallb _ _ && _ && _) eqn:Hchk; [|discriminate].
  apply andb_prop in Hchk as [Hchk _]. apply andb_prop in Hchk as [Hchk _].
  cbn [forallb] in Hchk.
  repeat (apply andb_prop in Hchk as [?%isDigit_digit Hchk]).
  set (month := GoTime.digit m1 * 10 + GoTime.digit m2).
  set (day := GoTime.digit d1 * 10 + GoTime.digit d2).
  set (year := _ + GoTime.digit y4).
  destruct (_ || _) eqn:Hm; [discriminate|].
  destruct ((day <? 1) || _) eqn:Hd; [discriminate|].
  intros [= <-]. cbn [GoTime.Year GoTime.Month GoTime.Day].
  pose proof (daysIn_le_31 month year).
  subst year. lia.
Qed.

Lemma digitChar_spec d :
  0 <= d <= 9 →
  GoTime.isDigit (GoTime.digitChar d) = true
  ∧ GoTime.digit (GoTime.digitChar d) = d
  ∧ Ascii.eqb (GoTime.digitChar d) "-"%char = false
  ∧ Ascii.eqb (GoTime.digitChar d) "+"%char = false.
Proof.
  intros Hd.
  assert (Hcases : d = 0 ∨ d = 1 ∨ d = 2 ∨ d = 3 ∨ d = 4 ∨ d = 5 ∨ d = 6
                   ∨ d = 7 ∨ d = 8 ∨ d = 9) by lia.
  repeat destruct Hcases as [-> | Hcases]; try subst d; vm_compute; auto.
Qed.

Lemma mod10_range x : 0 <= x mod 10 <= 9.
Proof. pose proof (Z.mod_pos_bound x 10). lia. Qed.

(** [Atoi] reads back what [Format("200601")] printed. *)
Lemma Atoi_Format200601 date :
  0 <= GoTime.Year date <= 9999 →
  1 <= GoTime.Month date <= 12 →
  Strconv.Atoi (GoTime.Format200601 date)
  = Ok (GoTime.Year date * 100 + GoTime.Month date).
Proof.
  intros Hy Hm.
  unfold Strconv.Atoi, GoTime.Format200601.
  rewrite list_ascii_of_string_of_list_ascii.
  set (y := GoTime.Year date) in *. set (m := GoTime.Month date) in *.
  destruct (digitChar_spec (y / 1000 mod 10)) as (D1 & V1 & M1 & P1);
    [apply mod10_range|].
  destruct (digitChar_spec (y / 100 mod 10)) as (D2 & V2 & _);
    [apply mod10_range|].
  destruct (digitChar_spec (y / 10 mod 10)) as (D3 & V3 & _);
    [apply mod10_range|].
  destruct (digitChar_spec (y mod 10)) as (D4 & V4 & _);
    [apply mod10_range|].
  destruct (digitChar_spec (m / 10 mod 10)) as (D5 & V5 & _);
    [apply mod10_range|].
  destruct (digitChar_spec (m mod 10)) as (D6 & V6 & _);
    [apply mod10_range|].
  rewrite M1, P1. cbn [Strconv.digits].
  rewrite D1, D2, D3, D4, D5, D6, V1, V2, V3, V4, V5, V6.
  set (v := (((((0 * 10 + _) * 10 + _) * 10 + _) * 10 + _) * 10 + _) * 10 + _).
  assert (Hv : v = y * 100 + m) by (subst v; Z.div_mod_to_equations; lia).
  rewrite Hv.
  assert (Hfit : (y * 100 + m <? - Strconv.maxInt - 1) || (Strconv.maxInt <? y * 100 + m) = false).
  { unfold Strconv.maxInt. apply orb_false_intro; lia. }
  rewrite Hfit. reflexivity.
Qed.

(** ** Stores into a well-shaped array *)

Lemma wfGrid_spec rows cols (g : Grid) :
  wfGrid rows cols g = true
  ↔ length g = rows ∧ ∀ (i : nat) (row : list Z), g !! i = Some row → length row = cols.
Proof.
  unfold wfGrid. rewrite andb_true_iff, Nat.eqb_eq, forallb_forall.
  split; intros [Hlen Hrows]; split; auto.
  - intros i row Hrow. apply Nat.eqb_eq, Hrows.
    apply list_elem_of_In, list_elem_of_lookup. eauto.
  - intros row Hin. apply list_elem_of_In, list_elem_of_lookup in Hin as [i Hi].
    apply Nat.eqb_eq. eauto.
Qed.

Lemma zeroGrid_wf rows cols : wfGrid rows cols (zeroGrid rows cols) = true.
Proof.
  apply wfGrid_spec. unfold zeroGrid. split.
  - apply length_replicate.
  - intros i row [-> _]%lookup_replicate. apply length_replicate.
Qed.

Lemma zeroGrid_cell rows cols i j :
  0 <= i < Z.of_nat rows → 0 <= j < Z.of_nat cols →
  cell (zeroGrid rows cols) i j = Some 0.
Proof.
  intros Hi Hj. unfold cell, zeroGrid.
  replace ((0 <=? i) && (0 <=? j)) with true by lia.
  rewrite lookup_replicate_2 by lia. cbn.
  apply lookup_replicate_2. lia.
Qed.

(** An in-range store succeeds, keeps the shape, sets its cell and leaves
    every other cell. *)
Lemma store_in_range rows cols (g : Grid) i j v :
  wfGrid rows cols g = true →
  0 <= i < Z.of_nat rows → 0 <= j < Z.of_nat cols →
  ∃ g', store g i j v = Next g'
        ∧ wfGrid rows cols g' = true
        ∧ cell g' i j = Some v
        ∧ ∀ i' j', (i', j') ≠ (i, j) → cell g' i' j' = cell g i' j'.
Proof.
  intros [Hlen Hrows]%wfGrid_spec Hi Hj.
  destruct (lookup_lt_is_Some_2 g (Z.to_nat i)) as [row Hrow]; [lia|].
  pose proof (Hrows _ _ Hrow) as Hcols.
  unfold store. rewrite Hrow.
  replace ((0 <=? i) && (0 <=? j) && (j <? Z.of_nat (length row))) with true by lia.
  eexists. split; [reflexivity|]. split; [|split].
  - apply wfGrid_spec. split; [by rewrite length_insert|].
    intros k r Hk.
    destruct (decide (k = Z.to_nat i)) as [->|Hne].
    + rewrite list_lookup_insert_eq in Hk by lia.
      injection Hk as <-. by rewrite length_insert.
    + rewrite list_lookup_insert_ne in Hk by done. eauto.
  - unfold cell. replace ((0 <=? i) && (0 <=? j)) with true by lia.
    rewrite list_lookup_insert_eq by lia. cbn.
    apply list_lookup_insert_eq. lia.
  - intros i' j' Hne. unfold cell.
    destruct ((0 <=? i') && (0 <=? j')) eqn:Hpos; [|reflexivity].
    destruct (decide (Z.to_nat i' = Z.to_nat i)) as [Heq|Hrow_ne].
    + rewrite Heq, Hrow, list_lookup_insert_eq by lia. cbn.
      apply list_lookup_insert_ne.
      intros Hj'. apply Hne. f_equal; lia.
    + by rewrite list_lookup_insert_ne.
Qed.

(** A store outside the array panics. *)
Lemma store_out_of_range rows cols (g : Grid) i j v :
  wfGrid rows cols g = true →
  ¬ (0 <= i < Z.of_nat rows ∧ 0 <= j < Z.of_nat cols) →
  store g i j v = Exit Panics.
Proof.
  intros [Hlen Hrows]%wfGrid_spec Hout. unfold store.
  destruct (g !! Z.to_nat i) as [row|] eqn:Hrow; [|reflexivity].
  pose proof (Hrows _ _ Hrow) as Hcols.
  apply lookup_lt_Some in Hrow.
  destruct ((0 <=? i) && (0 <=? j) && (j <? Z.of_nat (length row))) eqn:Hc;
    [|reflexivity].
  exfalso. apply Hout. lia.
Qed.

(** ** The loops *)

Lemma range_app {A S : Type} (body : S → A → flow S) s xs ys :
  range body s (xs ++ ys) = let! s' := range body s xs in range body s' ys.
Proof.
  revert s. induction xs as [|x xs IH]; intros s; cbn; [reflexivity|].
  destruct (body s x); cbn; auto.
Qed.

Lemma range_ext {A S : Type} (body1 body2 : S → A → flow S) s xs :
  (∀ s' x, body1 s' x = body2 s' x) → range body1 s xs = range body2 s xs.
Proof.
  intros Hext. revert s. induction xs as [|x xs IH]; intros s; cbn; [reflexivity|].
  rewrite Hext. destruct (body2 s x); cbn; auto.
Qed.

(** The two nested loops visit the days of the reply in order. *)
Lemma range_weeks (body : Grid → contributionDay → flow Grid) g weeks :
  range (fun g w => range body g (ContributionDays w)) g weeks
  = range body g (daysOf weeks).
Proof.
  revert g. induction weeks as [|w weeks IH]; intros g; [reflexivity|].
  unfold daysOf. cbn [range map concat]. rewrite range_app.
  destruct (range body g (ContributionDays w)); cbn; [apply IH|reflexivity].
Qed.

(** A loop keeps what its body keeps, and leaves only the way its body
    leaves. *)
Lemma range_invariant {A S : Type} (P : S → Prop) (Q : outcome → Prop)
    (body : S → A → flow S) s xs :
  (∀ s' x, P s' → match body s' x with Next s'' => P s'' | Exit o => Q o end) →
  P s →
  match range body s xs with Next s' => P s' | Exit o => Q o end.
Proof.
  intros Hbody. revert s. induction xs as [|x xs IH]; intros s Hs; cbn; [done|].
  pose proof (Hbody s x Hs) as Hstep.
  destruct (body s x); cbn; [by apply IH|done].
Qed.

(** ** One sample at a time *)

(** [main.go]: a sample whose date parses is stored in row [Month - 1] and
    column [Day - 1]; nothing else changes. *)
Lemma Rev12_dayBody_parsed (g : Grid) day date :
  wfGrid Rev12.numMonths Rev12.numDays g = true →
  GoTime.Parse (Date day) = Ok date →
  ∃ g', Rev12.dayBody g day = Next g'
        ∧ wfGrid Rev12.numMonths Rev12.numDays g' = true
        ∧ cell g' (GoTime.Month date - 1) (GoTime.Day date - 1)
          = Some (ContributionCount day)
        ∧ ∀ i j, (i, j) ≠ (GoTime.Month date - 1, GoTime.Day date - 1) →
                 cell g' i j = cell g i j.
Proof.
  intros Hwf Hparse. unfold Rev12.dayBody. rewrite Hparse.
  destruct (Parse_range _ _ Hparse) as (_ & Hm & Hd).
  apply (store_in_range _ _ _ _ _ _ Hwf); unfold Rev12.numMonths, Rev12.numDays; lia.
Qed.

Lemma Rev12_dayBody_malformed (g : Grid) day e :
  GoTime.Parse (Date day) = Err e →
  Rev12.dayBody g day = Exit (Returns (Rev12.failure e)).
Proof. intros Hparse. unfold Rev12.dayBody. by rewrite Hparse. Qed.

(** The later revisions: a sample outside the thirteen months is skipped. *)
Lemma Rev13_dayBody_skipped startDate (g : Grid) day date :
  GoTime.Parse (Date day) = Ok date →
  ¬ (0 <= Rev13.monthIndexOf startDate date < 13) →
  Rev13.dayBody startDate g day = Next g.
Proof.
  intros Hparse Hout. unfold Rev13.dayBody. rewrite Hparse.
  destruct (Parse_range _ _ Hparse) as (Hy & Hm & _).
  rewrite Atoi_Format200601 by done.
  unfold Rev13.numMonths. rewrite Z.geb_leb. change (Z.of_nat 13) with 13.
  destruct (_ || _) eqn:Hguard; [reflexivity|].
  exfalso. apply Hout. lia.
Qed.

(** A sample inside them is stored in row [monthIndex] and column [Day], and
    the row's column 0 receives the label; nothing else changes. *)
Lemma Rev13_dayBody_stored startDate (g : Grid) day date :
  wfGrid Rev13.numMonths Rev13.numDays g = true →
  GoTime.Parse (Date day) = Ok date →
  0 <= Rev13.monthIndexOf startDate date < 13 →
  ∃ g', Rev13.dayBody startDate g day = Next g'
        ∧ wfGrid Rev13.numMonths Rev13.numDays g' = true
        ∧ cell g' (Rev13.monthIndexOf startDate date) (GoTime.Day date)
          = Some (ContributionCount day)
        ∧ cell g' (Rev13.monthIndexOf startDate date) 0
          = Some (GoTime.Year date * 100 + GoTime.Month date)
        ∧ ∀ i j, i ≠ Rev13.monthIndexOf startDate date
                 ∨ (j ≠ GoTime.Day date ∧ j ≠ 0) →
                 cell g' i j = cell g i j.
Proof.
  intros Hwf Hparse Hin. unfold Rev13.dayBody. rewrite Hparse.
  destruct (Parse_range _ _ Hparse) as (Hy & Hm & Hd).
  rewrite Atoi_Format200601 by done.
  set (mi := Rev13.monthIndexOf startDate date) in *.
  replace ((mi <? 0) || (mi >=? Z.of_nat Rev13.numMonths)) with false
    by (unfold Rev13.numMonths; rewrite Z.geb_leb; change (Z.of_nat 13) with 13; lia).
  destruct (store_in_range _ _ g mi (GoTime.Day date) (ContributionCount day) Hwf)
    as (g1 & -> & Hwf1 & Hday & Hrest1); [unfold Rev13.numMonths; lia
                                         |unfold Rev13.numDays; lia|].
  cbn [flow_bind].
  destruct (store_in_range _ _ g1 mi 0
              (GoTime.Year date * 100 + GoTime.Month date) Hwf1)
    as (g2 & -> & Hwf2 & Hlabel & Hrest2); [unfold Rev13.numMonths; lia
                                           |unfold Rev13.numDays; lia|].
  exists g2. repeat split; auto.
  - rewrite Hrest2; [done|]. intros Heq. inversion Heq. lia.
  - intros i j Hother.
    rewrite Hrest2, Hrest1; [done| |]; intros Heq; inversion Heq; lia.
Qed.

Lemma Rev13_dayBody_malformed startDate (g : Grid) day e :
  GoTime.Parse (Date day) = Err e →
  Rev13.dayBody startDate g day = Exit (Returns (Rev13.failure e)).
Proof. intros Hparse. unfold Rev13.dayBody. by rewrite Hparse. Qed.

(** ** The loops as a whole *)

Lemma Rev12_fill_safe weeks :
  match Rev12.fillContributions weeks with
  | Next g => wfGrid Rev12.numMonths Rev12.numDays g = true
  | Exit o => ∃ e, o = Returns (Rev12.failure e)
  end.
Proof.
  unfold Rev12.fillContributions. rewrite range_weeks.
  apply (range_invariant
           (fun g => wfGrid Rev12.numMonths Rev12.numDays g = true)
           (fun o => ∃ e, o = Returns (Rev12.failure e))); [|apply zeroGrid_wf].
  intros g day Hwf.
  destruct (GoTime.Parse (Date day)) as [date|e] eqn:Hparse.
  - destruct (Rev12_dayBody_parsed g day date Hwf Hparse) as (g' & -> & Hwf' & _).
    exact Hwf'.
  - rewrite (Rev12_dayBody_malformed g day e Hparse). eauto.
Qed.

Lemma Rev13_dayBody_safe startDate (g : Grid) day :
  wfGrid Rev13.numMonths Rev13.numDays g = true →
  match Rev13.dayBody startDate g day with
  | Next g' => wfGrid Rev13.numMonths Rev13.numDays g' = true
  | Exit o => ∃ e, o = Returns (Rev13.failure e)
  end.
Proof.
  intros Hwf.
  destruct (GoTime.Parse (Date day)) as [date|e] eqn:Hparse.
  - destruct (decide (0 <= Rev13.monthIndexOf startDate date < 13)) as [Hin|Hout].
    + destruct (Rev13_dayBody_stored startDate g day date Hwf Hparse Hin)
        as (g' & -> & Hwf' & _).
      exact Hwf'.
    + by rewrite (Rev13_dayBody_skipped startDate g day date Hparse Hout).
  - rewrite (Rev13_dayBody_malformed startDate g day e Hparse). eauto.
Qed.

Lemma Rev13_fill_safe startDate weeks :
  match Rev13.fillContributions startDate weeks with
  | Next g => wfGrid Rev13.numMonths Rev13.numDays g = true
  | Exit o => ∃ e, o = Returns (Rev13.failure e)
  end.
Proof.
  unfold Rev13.fillContributions. rewrite range_weeks.
  apply (range_invariant
           (fun g => wfGrid Rev13.numMonths Rev13.numDays g = true)
           (fun o => ∃ e, o = Returns (Rev13.failure e))); [|apply zeroGrid_wf].
  intros g day. apply Rev13_dayBody_safe.
Qed.

(** C10. Every write of [fetchData] into the contributions array is in
    bounds: an index out of range would make the store panic, and in both
    designs the closure returns a message in every world, carrying an array
    of the declared shape. In [main.go] the indices are [Month() - 1] and
    [Day() - 1]; in the later revisions the row is guarded to lie in
    [0, numMonths) and the columns are [Day()] and 0. *)
Theorem C10_writes_in_bounds (username : string) (w : World) :
  (∃ f, Rev12.fetchData username w = Returns f
        ∧ wfGrid Rev12.numMonths Rev12.numDays (fetchMsg.contributions f) = true)
  ∧ (∃ f, Rev13.fetchData username w = Returns f
          ∧ wfGrid Rev13.numMonths Rev13.numDays (fetchMsg.contributions f) = true).
Proof.
  split.
  - unfold Rev12.fetchData. destruct (reply w) as [weeks|e].
    + pose proof (Rev12_fill_safe weeks) as Hsafe.
      destruct (Rev12.fillContributions weeks) as [g|o].
      * eexists. split; [reflexivity|exact Hsafe].
      * destruct Hsafe as [e ->]. eexists. split; [reflexivity|apply zeroGrid_wf].
    + eexists. split; [reflexivity|apply zeroGrid_wf].
  - unfold Rev13.fetchData. destruct (reply w) as [weeks|e].
    + pose proof (Rev13_fill_safe (GoTime.AddDateMinusOneYear (now w)) weeks) as Hsafe.
      destruct (Rev13.fillContributions _ weeks) as [g|o].
      * eexists. split; [reflexivity|exact Hsafe].
      * destruct Hsafe as [e ->]. eexists. split; [reflexivity|apply zeroGrid_wf].
    + eexists. split; [reflexivity|apply zeroGrid_wf].
Qed.

(** The later revisions read the anchor only through its year and month. *)
Lemma Rev13_dayBody_anchor start1 start2 (g : Grid) day :
  GoTime.Year start1 = GoTime.Year start2 →
  GoTime.Month start1 = GoTime.Month start2 →
  Rev13.dayBody start1 g day = Rev13.dayBody start2 g day.
Proof.
  intros Hy Hm. unfold Rev13.dayBody, Rev13.monthIndexOf. by rewrite Hy, Hm.
Qed.

(** C9. The grid builder is deterministic: two runs of the command that
    receive the same samples and whose anchors [now - 1 year] agree (in year
    and month, all the loop reads of the anchor) return the same message,
    hence the same grid, whatever else differs between the runs. *)
Theorem C9_builder_deterministic (username1 username2 : string) (w1 w2 : World) :
  reply w1 = reply w2 →
  GoTime.Year (GoTime.AddDateMinusOneYear (now w1))
  = GoTime.Year (GoTime.AddDateMinusOneYear (now w2)) →
  GoTime.Month (GoTime.AddDateMinusOneYear (now w1))
  = GoTime.Month (GoTime.AddDateMinusOneYear (now w2)) →
  Rev13.fetchData username1 w1 = Rev13.fetchData username2 w2
  ∧ Rev12.fetchData username1 w1 = Rev12.fetchData username2 w2.
Proof.
  intros Hreply Hy Hm. unfold Rev13.fetchData, Rev12.fetchData.
  rewrite Hreply. split; [|reflexivity].
  destruct (reply w2) as [weeks|e]; [|reflexivity].
  unfold Rev13.fillContributions.
  rewrite !range_weeks.
  rewrite (range_ext (Rev13.dayBody (GoTime.AddDateMinusOneYear (now w1)))
                     (Rev13.dayBody (GoTime.AddDateMinusOneYear (now w2))));
    [reflexivity|].
  intros g day. by apply Rev13_dayBody_anchor.
Qed.

Lemma C9_builder_deterministic_witness :
  reply sampleWorld = reply sampleWorldLater
  ∧ GoTime.Year (GoTime.AddDateMinusOneYear (now sampleWorld))
    = GoTime.Year (GoTime.AddDateMinusOneYear (now sampleWorldLater))
  ∧ GoTime.Month (GoTime.AddDateMinusOneYear (now sampleWorld))
    = GoTime.Month (GoTime.AddDateMinusOneYear (now sampleWorldLater))
  ∧ Rev13.fetchData "alice" sampleWorld = Rev13.fetchData "bob" sampleWorldLater
  ∧ Rev12.fetchData "alice" sampleWorld = Rev12.fetchData "bob" sampleWorldLater.
Proof.
  repeat (split; [reflexivity|]).
  apply (C9_builder_deterministic "alice" "bob" sampleWorld sampleWorldLater);
    reflexivity.
Defined.

(** ** Row labels *)

(** Within one run the row determines the year and the month. *)
Lemma monthIndexOf_injective startDate date1 date2 :
  1 <= GoTime.Month date1 <= 12 → 1 <= GoTime.Month date2 <= 12 →
  Rev13.monthIndexOf startDate date1 = Rev13.monthIndexOf startDate date2 →
  GoTime.Year date1 = GoTime.Year date2 ∧ GoTime.Month date1 = GoTime.Month date2.
Proof. unfold Rev13.monthIndexOf. lia. Qed.

Lemma decodeYearMonth_label year month :
  1 <= month <= 12 → decodeYearMonth (year * 100 + month) = (year, month).
Proof.
  intros Hm. unfold decodeYearMonth. f_equal; Z.div_mod_to_equations; lia.
Qed.

(** A label stays through the rest of the loop: later samples of the row
    write the same label again. *)
Lemma Rev13_label_kept startDate date0 days :
  1 <= GoTime.Month date0 <= 12 →
  ∀ g0 g : Grid,
    wfGrid Rev13.numMonths Rev13.numDays g0 = true →
    cell g0 (Rev13.monthIndexOf startDate date0) 0
    = Some (GoTime.Year date0 * 100 + GoTime.Month date0) →
    range (Rev13.dayBody startDate) g0 days = Next g →
    cell g (Rev13.monthIndexOf startDate date0) 0
    = Some (GoTime.Year date0 * 100 + GoTime.Month date0).
Proof.
  intros Hm0. induction days as [|day days IH]; intros g0 g Hwf Hlabel Hrun.
  - cbn in Hrun. by injection Hrun as <-.
  - cbn [range] in Hrun.
    destruct (GoTime.Parse (Date day)) as [date|e] eqn:Hparse.
    + destruct (decide (0 <= Rev13.monthIndexOf startDate date < 13)) as [Hin|Hout].
      * destruct (Rev13_dayBody_stored startDate g0 day date Hwf Hparse Hin)
          as (g1 & Hbody & Hwf1 & _ & Hlabel1 & Hrest).
        rewrite Hbody in Hrun. cbn [flow_bind] in Hrun.
        apply (IH g1 g Hwf1); [|exact Hrun].
        destruct (decide (Rev13.monthIndexOf startDate date
                          = Rev13.monthIndexOf startDate date0)) as [Heq|Hne].
        -- destruct (Parse_range _ _ Hparse) as (_ & Hm & _).
           destruct (monthIndexOf_injective startDate date date0 Hm Hm0 Heq)
             as [Hy' Hm'].
           by rewrite <- Heq, Hlabel1, Hy', Hm'.
        -- rewrite Hrest; [exact Hlabel|]. left. congruence.
      * rewrite (Rev13_dayBody_skipped startDate g0 day date Hparse Hout) in Hrun.
        by apply (IH g0 g).
    + rewrite (Rev13_dayBody_malformed startDate g0 day e Hparse) in Hrun.
      discriminate.
Qed.

Lemma Rev13_labels startDate days :
  ∀ g0 g : Grid,
    wfGrid Rev13.numMonths Rev13.numDays g0 = true →
    range (Rev13.dayBody startDate) g0 days = Next g →
    ∀ day date,
      In day days → GoTime.Parse (Date day) = Ok date →
      0 <= Rev13.monthIndexOf startDate date < 13 →
      cell g (Rev13.monthIndexOf startDate date) 0
      = Some (GoTime.Year date * 100 + GoTime.Month date).
Proof.
  induction days as [|d days IH]; intros g0 g Hwf Hrun day date Hday Hparse Hin;
    [destruct Hday|].
  cbn [range] in Hrun.
  destruct Hday as [->|Hday].
  - destruct (Rev13_dayBody_stored startDate g0 day date Hwf Hparse Hin)
      as (g1 & Hbody & Hwf1 & _ & Hlabel1 & _).
    rewrite Hbody in Hrun. cbn [flow_bind] in Hrun.
    destruct (Parse_range _ _ Hparse) as (_ & Hm & _).
    by apply (Rev13_label_kept startDate date days Hm g1 g).
  - pose proof (Rev13_dayBody_safe startDate g0 d Hwf) as Hsafe.
    destruct (Rev13.dayBody startDate g0 d) as [g1|o]; [|discriminate].
    cbn [flow_bind] in Hrun. by apply (IH g1 g Hsafe Hrun day date).
Qed.

(** C8. In the grid built by the later revisions, every row that received a
    sample of the window holds in column 0 the encoded year-month of that
    sample, and decoding it gives back the year and the month from which the
    row index was computed. *)
Theorem C8_label_round_trip (startDate : GoTime.Time) (weeks : list week)
    (g : Grid) (day : contributionDay) (date : GoTime.Time) :
  Rev13.fillContributions startDate weeks = Next g →
  In day (daysOf weeks) →
  GoTime.Parse (Date day) = Ok date →
  0 <= Rev13.monthIndexOf startDate date < 13 →
  ∃ label,
    cell g (Rev13.monthIndexOf startDate date) 0 = Some label
    ∧ label = GoTime.Year date * 100 + GoTime.Month date
    ∧ decodeYearMonth label = (GoTime.Year date, GoTime.Month date).
Proof.
  intros Hfill Hday Hparse Hin.
  unfold Rev13.fillContributions in Hfill. rewrite range_weeks in Hfill.
  exists (GoTime.Year date * 100 + GoTime.Month date).
  split; [|split; [reflexivity|]].
  - apply (Rev13_labels startDate (daysOf weeks) _ g (zeroGrid_wf _ _) Hfill day date);
      assumption.
  - apply decodeYearMonth_label. by destruct (Parse_range _ _ Hparse) as (_ & ? & _).
Qed.

Lemma C8_label_round_trip_witness :
  Rev13.fillContributions (GoTime.AddDateMinusOneYear may2024) sampleWeeks
  = Next sampleGrid_labelled
  ∧ In inWindowDay (daysOf sampleWeeks)
  ∧ GoTime.Parse (Date inWindowDay) = Ok (GoTime.mkTime 2023 5 25)
  ∧ 0 <= Rev13.monthIndexOf (GoTime.AddDateMinusOneYear may2024)
                            (GoTime.mkTime 2023 5 25) < 13
  ∧ ∃ label,
      cell sampleGrid_labelled
           (Rev13.monthIndexOf (GoTime.AddDateMinusOneYear may2024)
                               (GoTime.mkTime 2023 5 25)) 0 = Some label
      ∧ label = GoTime.Year (GoTime.mkTime 2023 5 25) * 100
                + GoTime.Month (GoTime.mkTime 2023 5 25)
      ∧ decodeYearMonth label
        = (GoTime.Year (GoTime.mkTime 2023 5 25), GoTime.Month (GoTime.mkTime 2023 5 25)).
Proof.
  assert (Hfill : Rev13.fillContributions (GoTime.AddDateMinusOneYear may2024) sampleWeeks
                  = Next sampleGrid_labelled) by reflexivity.
  assert (Hin : In inWindowDay (daysOf sampleWeeks)) by (left; reflexivity).
  assert (Hparse : GoTime.Parse (Date inWindowDay) = Ok (GoTime.mkTime 2023 5 25))
    by reflexivity.
  assert (Hwin : 0 <= Rev13.monthIndexOf (GoTime.AddDateMinusOneYear may2024)
                                         (GoTime.mkTime 2023 5 25) < 13)
    by (unfold Rev13.monthIndexOf; simpl; lia).
  repeat (split; [assumption|]).
  exact (C8_label_round_trip _ _ _ _ _ Hfill Hin Hparse Hwin).
Defined.

(** ** Rows and the window *)

(** C1, amended. In the later revisions the row of a sample is
    [monthIndex = (sampleYear - anchorYear) * 12 + (sampleMonth - anchorMonth)]
    with the anchor [now - 1 year]: a sample of the window is stored in that
    row and no other row changes, and a sample of the anchor's year and month
    is stored in row 0. [main.go] computes no anchor: its row is the calendar
    month minus one. *)
Theorem C1_row_index (clock : GoTime.Time) (g12 g13 : Grid)
    (day : contributionDay) (date : GoTime.Time) :
  wfGrid Rev12.numMonths Rev12.numDays g12 = true →
  wfGrid Rev13.numMonths Rev13.numDays g13 = true →
  GoTime.Parse (Date day) = Ok date →
  let anchor := GoTime.AddDateMinusOneYear clock in
  let monthIndex :=
    (GoTime.Year date - GoTime.Year anchor) * 12
    + (GoTime.Month date - GoTime.Month anchor) in
  Rev13.monthIndexOf anchor date = monthIndex
  ∧ (0 <= monthIndex < 13 →
     ∃ g', Rev13.dayBody anchor g13 day = Next g'
           ∧ cell g' monthIndex (GoTime.Day date) = Some (ContributionCount day)
           ∧ ∀ i j, i ≠ monthIndex → cell g' i j = cell g13 i j)
  ∧ (GoTime.Year date = GoTime.Year anchor →
     GoTime.Month date = GoTime.Month anchor →
     monthIndex = 0
     ∧ ∃ g', Rev13.dayBody anchor g13 day = Next g'
             ∧ cell g' 0 (GoTime.Day date) = Some (ContributionCount day))
  ∧ (∃ g', Rev12.dayBody g12 day = Next g'
           ∧ cell g' (GoTime.Month date - 1) (GoTime.Day date - 1)
             = Some (ContributionCount day)
           ∧ ∀ i j, i ≠ GoTime.Month date - 1 → cell g' i j = cell g12 i j).
Proof.
  intros Hwf12 Hwf13 Hparse anchor monthIndex.
  assert (Hindex : Rev13.monthIndexOf anchor date = monthIndex)
    by (unfold Rev13.monthIndexOf; subst monthIndex; lia).
  split; [exact Hindex|]. split; [|split].
  - intros Hin. rewrite <- Hindex in Hin |- *.
    destruct (Rev13_dayBody_stored anchor g13 day date Hwf13 Hparse Hin)
      as (g' & Hbody & _ & Hday & _ & Hrest).
    exists g'. repeat split; auto.
  - intros Hy Hm.
    assert (Hzero : monthIndex = 0) by (subst monthIndex; lia).
    split; [exact Hzero|].
    assert (Hin : 0 <= Rev13.monthIndexOf anchor date < 13) by lia.
    destruct (Rev13_dayBody_stored anchor g13 day date Hwf13 Hparse Hin)
      as (g' & Hbody & _ & Hday & _).
    exists g'. split; [exact Hbody|]. by rewrite Hindex, Hzero in Hday.
  - destruct (Rev12_dayBody_parsed g12 day date Hwf12 Hparse)
      as (g' & Hbody & _ & Hday & Hrest).
    exists g'. repeat split; auto.
    intros i j Hne. apply Hrest. congruence.
Qed.

Lemma C1_row_index_witness :
  wfGrid Rev12.numMonths Rev12.numDays (zeroGrid 12 31) = true
  ∧ wfGrid Rev13.numMonths Rev13.numDays (zeroGrid 13 32) = true
  ∧ GoTime.Parse (Date inWindowDay) = Ok (GoTime.mkTime 2023 5 25)
  ∧ Rev13.monthIndexOf (GoTime.AddDateMinusOneYear may2024) (GoTime.mkTime 2023 5 25) = 0.
Proof.
  repeat (split; [reflexivity|]).
  exact (proj1 (C1_row_index may2024 (zeroGrid 12 31) (zeroGrid 13 32) inWindowDay
                  (GoTime.mkTime 2023 5 25) eq_refl eq_refl eq_refl)).
Defined.

(** C1 as stated fails on [main.go]: with the anchor 20 May 2023, the sample
    of 25 May 2023 has the anchor's year and month, so its [monthIndex] is 0,
    yet the loop stores it in row 4 and leaves row 0 untouched. *)
Lemma C1_counterexample :
  let anchor := GoTime.AddDateMinusOneYear may2024 in
  ∃ date g',
    GoTime.Parse (Date inWindowDay) = Ok date
    ∧ (GoTime.Year date, GoTime.Month date) = (GoTime.Year anchor, GoTime.Month anchor)
    ∧ (GoTime.Year date - GoTime.Year anchor) * 12
      + (GoTime.Month date - GoTime.Month anchor) = 0
    ∧ Rev12.dayBody (zeroGrid 12 31) inWindowDay = Next g'
    ∧ cell g' 0 24 = Some 0
    ∧ cell g' 4 24 = Some 4.
Proof. do 2 eexists. repeat split; reflexivity. Qed.

(** C6, amended. In the later revisions a sample whose [monthIndex] falls
    outside [0, 13) is skipped: the loop goes on with the grid as it was and
    returns no error. [main.go] has no window: it stores every sample whose
    date parses, at [Month - 1] and [Day - 1]. *)
Theorem C6_out_of_window (clock : GoTime.Time) (g12 g13 : Grid)
    (day : contributionDay) (date : GoTime.Time) :
  wfGrid Rev12.numMonths Rev12.numDays g12 = true →
  GoTime.Parse (Date day) = Ok date →
  let anchor := GoTime.AddDateMinusOneYear clock in
  let monthIndex :=
    (GoTime.Year date - GoTime.Year anchor) * 12
    + (GoTime.Month date - GoTime.Month anchor) in
  ¬ (0 <= monthIndex < 13) →
  Rev13.dayBody anchor g13 day = Next g13
  ∧ ∃ g', Rev12.dayBody g12 day = Next g'
          ∧ cell g' (GoTime.Month date - 1) (GoTime.Day date - 1)
            = Some (ContributionCount day).
Proof.
  intros Hwf12 Hparse anchor monthIndex Hout. split.
  - apply (Rev13_dayBody_skipped anchor g13 day date Hparse).
    unfold Rev13.monthIndexOf. subst monthIndex. lia.
  - destruct (Rev12_dayBody_parsed g12 day date Hwf12 Hparse)
      as (g' & Hbody & _ & Hday & _).
    eauto.
Qed.

Lemma C6_out_of_window_witness :
  wfGrid Rev12.numMonths Rev12.numDays (zeroGrid 12 31) = true
  ∧ GoTime.Parse (Date oldDay) = Ok (GoTime.mkTime 2022 1 1)
  ∧ ¬ (0 <= (2022 - 2023) * 12 + (1 - 5) < 13)
  ∧ Rev13.dayBody (GoTime.AddDateMinusOneYear may2024) sampleGrid oldDay = Next sampleGrid.
Proof.
  assert (Hout : ¬ (0 <= (2022 - 2023) * 12 + (1 - 5) < 13)) by lia.
  split; [reflexivity|]. split; [reflexivity|]. split; [exact Hout|].
  exact (proj1 (C6_out_of_window may2024 (zeroGrid 12 31) sampleGrid oldDay
                  (GoTime.mkTime 2022 1 1) eq_refl eq_refl Hout)).
Defined.

(** C6 as stated fails on [main.go]: with the anchor 20 May 2023, the sample
    of 1 January 2022 lies sixteen months before the anchor, yet the loop
    writes its count into the grid. *)
Lemma C6_counterexample :
  let anchor := GoTime.AddDateMinusOneYear may2024 in
  ∃ date g',
    GoTime.Parse (Date oldDay) = Ok date
    ∧ (GoTime.Year date - GoTime.Year anchor) * 12
      + (GoTime.Month date - GoTime.Month anchor) = -16
    ∧ Rev12.dayBody (zeroGrid 12 31) oldDay = Next g'
    ∧ cell (zeroGrid 12 31) 0 0 = Some 0
    ∧ cell g' 0 0 = Some 7.
Proof. do 2 eexists. repeat split; reflexivity. Qed.

(** The grid of the later revisions is the one built from the samples of
    the window alone. *)
Lemma Rev13_fill_window_only startDate days :
  ∀ g : Grid,
    range (Rev13.dayBody startDate) g days
    = range (Rev13.dayBody startDate) g
            (List.filter (fun d => negb (outOfWindow startDate d)) days).
Proof.
  induction days as [|day days IH]; intros g; [reflexivity|].
  cbn [List.filter].
  destruct (outOfWindow startDate day) eqn:Hout; cbn [negb range].
  - unfold outOfWindow in Hout.
    destruct (GoTime.Parse (Date day)) as [date|e] eqn:Hparse; [|discriminate].
    rewrite (Rev13_dayBody_skipped startDate g day date Hparse) by lia.
    cbn. apply IH.
  - destruct (Rev13.dayBody startDate g day); cbn; [apply IH|reflexivity].
Qed.

(** ** [Update] and the fetch messages *)

Section UpdateFacts.
Context {TI : Type} `{TextInput TI}.

(** The text input never asks for a fetch, and it never quits. *)
Lemma updateInput_cmd (m : model TI) msg :
  ∃ cs, snd (updateInput m msg) = CmdInput cs.
Proof. unfold updateInput. destruct (tiUpdate (username m) msg). cbn. eauto. Qed.

Lemma updateInput_fields (m : model TI) msg :
  contributions (fst (updateInput m msg)) = contributions m
  ∧ submittedName (fst (updateInput m msg)) = submittedName m
  ∧ err (fst (updateInput m msg)) = err m
  ∧ username (fst (updateInput m msg)) = fst (tiUpdate (username m) msg).
Proof. unfold updateInput. by destruct (tiUpdate (username m) msg). Qed.

(** A failure message only sets [err]. *)
Lemma Update_failure (m : model TI) (g : Grid) e :
  Update m (FetchMsg (fetchMsg.mk g (Some e)))
  = (mkModel (contributions m) (username m) (submittedName m) (Some e), CmdNil).
Proof. reflexivity. Qed.

(** A success message sets [contributions], then goes to the text input. *)
Lemma Update_success (m : model TI) (g : Grid) :
  Update m (FetchMsg (fetchMsg.mk g None))
  = updateInput (mkModel g (username m) (submittedName m) (err m))
                (FetchMsg (fetchMsg.mk g None)).
Proof. reflexivity. Qed.

End UpdateFacts.

(** C3, amended. [Update] handles a fetch message the same way in every
    phase: the failure variant records the error and leaves the other
    fields, the success variant installs the returned grid and keeps
    [submittedName] and [err]. Nothing is ignored outside [Fetching]. *)
Theorem C3_completion_in_any_phase {TI : Type} `{TextInput TI}
    (m : model TI) (p : Phase) (f : fetchMsg.t) :
  let m' := fst (step (m, p) (FetchMsg f)) in
  match fetchMsg.err f with
  | Some e => m' = mkModel (contributions m) (username m) (submittedName m) (Some e)
  | None =>
      contributions m' = fetchMsg.contributions f
      ∧ submittedName m' = submittedName m
      ∧ err m' = err m
  end.
Proof.
  destruct f as [g [e|]]; cbn -[Update].
  - unfold step. cbn [fst snd]. by rewrite Update_failure.
  - unfold step. cbn [fst snd]. rewrite Update_success.
    destruct (updateInput_fields
                (mkModel g (username m) (submittedName m) (err m))
                (FetchMsg (fetchMsg.mk g None))) as (Hc & Hs & He & _).
    destruct (updateInput _ _) as [m1 cmd]. cbn in *. auto.
Qed.

(** C3 as stated fails: after two overlapping fetches and the first
    completion the run is in phase [Displaying], and the second completion,
    a failure, still changes the model. *)
Lemma C3_counterexample :
  let s := run (TI := string) 13 32 overlappingRun in
  snd s = Displaying
  ∧ err (fst s) = None
  ∧ err (fst (step s (FetchMsg (Rev13.failure "boom")))) = Some "boom"
  ∧ fst (step s (FetchMsg (Rev13.failure "boom"))) ≠ fst s.
Proof.
  cbv zeta. repeat split.
  intros Heq. apply (f_equal err) in Heq. discriminate Heq.
Qed.

(** C4, amended. In phase [Fetching] a success message installs the
    returned grid and moves the phase to [Displaying]; the command returned
    is the text input's. [err] is left as it was: an error recorded earlier
    stays in the state, and it is [nil] afterwards when it was [nil]
    before. *)
Theorem C4_success_installs_grid {TI : Type} `{TextInput TI}
    (m : model TI) (g : Grid) :
  let msg := FetchMsg (fetchMsg.mk g None) in
  contributions (fst (Update m msg)) = g
  ∧ submittedName (fst (Update m msg)) = submittedName m
  ∧ err (fst (Update m msg)) = err m
  ∧ (∃ cs, snd (Update m msg) = CmdInput cs)
  ∧ snd (step (m, Fetching) msg) = Displaying.
Proof.
  cbv zeta. rewrite Update_success.
  destruct (updateInput_fields
              (mkModel g (username m) (submittedName m) (err m))
              (FetchMsg (fetchMsg.mk g None))) as (Hc & Hs & He & _).
  destruct (updateInput_cmd
              (mkModel g (username m) (submittedName m) (err m))
              (FetchMsg (fetchMsg.mk g None))) as [cs Hcmd].
  repeat split; auto; [eauto|].
  unfold step. cbn [fst snd]. rewrite Update_success.
  destruct (updateInput _ _) as [m1 cmd]. cbn in Hcmd. subst cmd. reflexivity.
Qed.

(** C4 as stated fails: a fetch fails, the user submits again, and the
    success message of the second fetch arrives in phase [Fetching]; the
    grid is installed but the old error is still in the state, and [View]
    still shows it. *)
Lemma C4_counterexample :
  let s := run (TI := string) 13 32 retryRun in
  let s' := step s (FetchMsg (fetchMsg.mk sampleGrid None)) in
  snd s = Fetching
  ∧ contributions (fst s') = sampleGrid
  ∧ err (fst s') = Some "boom"
  ∧ View13.View plainRender (fst s') = "Error: boom" ++ nl.
Proof. cbv zeta. repeat split. Qed.

(** C5. A failure message records the error and leaves the grid, the text
    input and the submitted name exactly as they were, whatever grid the
    message carries; no command follows; from [Fetching] the phase moves to
    [Failed], and [View] shows the error. *)
Theorem C5_failure_keeps_grid {TI : Type} `{TextInput TI}
    (Render : Style → string → string) (m : model TI) (g : Grid) (e : string) :
  let msg := FetchMsg (fetchMsg.mk g (Some e)) in
  err (fst (Update m msg)) = Some e
  ∧ contributions (fst (Update m msg)) = contributions m
  ∧ username (fst (Update m msg)) = username m
  ∧ submittedName (fst (Update m msg)) = submittedName m
  ∧ snd (Update m msg) = CmdNil
  ∧ snd (step (m, Fetching) msg) = Failed
  ∧ View12.View (fst (Update m msg)) = "Error: " ++ e ++ nl
  ∧ View13.View Render (fst (Update m msg)) = "Error: " ++ e ++ nl.
Proof. cbv zeta. unfold step. cbn [fst snd]. rewrite Update_failure. by repeat split. Qed.

(** A loop whose body leaves at some element leaves. *)
Lemma range_leaves {A S : Type} (body : S → A → flow S) (bad : A → Prop) xs :
  (∀ s x, bad x → ∃ o, body s x = Exit o) →
  (∃ x, In x xs ∧ bad x) →
  ∀ s, ∃ o, range body s xs = Exit o.
Proof.
  intros Hbad. induction xs as [|x xs IH]; intros (y & Hy & Hbady) s;
    [destruct Hy|].
  cbn [range]. destruct (body s x) as [s'|o] eqn:Hbody; cbn [flow_bind]; [|eauto].
  destruct Hy as [->|Hy].
  - destruct (Hbad s y Hbady) as [o Ho]. congruence.
  - apply IH. eauto.
Qed.

(** The scenario of C5: when the date of some sample does not parse, the
    command returns a failure message, and [Update] then records the error
    and keeps the grid the model had. *)
Lemma malformed_date_scenario {TI : Type} `{TextInput TI}
    (m : model TI) (username : string) (w : World) weeks day e :
  reply w = Ok weeks →
  In day (daysOf weeks) →
  GoTime.Parse (Date day) = Err e →
  ∃ e',
    Rev13.fetchData username w = Returns (Rev13.failure e')
    ∧ contributions (fst (Update m (FetchMsg (Rev13.failure e')))) = contributions m
    ∧ err (fst (Update m (FetchMsg (Rev13.failure e')))) = Some e'.
Proof.
  intros Hreply Hday Hparse. unfold Rev13.fetchData. rewrite Hreply.
  pose proof (Rev13_fill_safe (GoTime.AddDateMinusOneYear (now w)) weeks) as Hsafe.
  destruct (range_leaves (Rev13.dayBody (GoTime.AddDateMinusOneYear (now w)))
              (fun d => ∃ e, GoTime.Parse (Date d) = Err e) (daysOf weeks))
    with (s := zeroGrid Rev13.numMonths Rev13.numDays) as [o Ho].
  - intros g d [e0 He0]. rewrite (Rev13_dayBody_malformed _ g d e0 He0). eauto.
  - eauto.
  - unfold Rev13.fillContributions in *. rewrite range_weeks in *.
    rewrite Ho in *. destruct Hsafe as [e' ->]. exists e'. by repeat split.
Qed.

(** C7. A submit with an empty input buffer changes nothing the program
    owns: the phase stays, the command returned is the text input's (no
    fetch task), and the buffer, the submitted name, the grid and the error
    are as before. The text input is assumed to leave its value on Enter, as
    the bubbles input does. *)
Theorem C7_empty_submit_noop {TI : Type} `{TextInput TI}
    (m : model TI) (p : Phase) :
  (∀ t : TI, tiValue (fst (tiUpdate t (KeyMsg "enter"))) = tiValue t) →
  tiValue (username m) = "" →
  snd (step (m, p) (KeyMsg "enter")) = p
  ∧ (∃ cs, snd (Update m (KeyMsg "enter")) = CmdInput cs)
  ∧ tiValue (username (fst (Update m (KeyMsg "enter")))) = ""
  ∧ submittedName (fst (Update m (KeyMsg "enter"))) = submittedName m
  ∧ contributions (fst (Update m (KeyMsg "enter"))) = contributions m
  ∧ err (fst (Update m (KeyMsg "enter"))) = err m.
Proof.
  intros Henter Hempty.
  assert (HU : Update m (KeyMsg "enter") = updateInput m (KeyMsg "enter")).
  { unfold Update. cbn [String.eqb Ascii.eqb Bool.eqb orb].
    rewrite Hempty. reflexivity. }
  destruct (updateInput_fields m (KeyMsg "enter")) as (Hc & Hs & He & Hu).
  destruct (updateInput_cmd m (KeyMsg "enter")) as [cs Hcmd].
  unfold step. cbn [fst snd]. rewrite HU.
  repeat split; auto.
  - destruct (updateInput m (KeyMsg "enter")) as [m1 cmd]. cbn in Hcmd. by subst cmd.
  - eauto.
  - by rewrite Hu, Henter.
Qed.

Lemma C7_empty_submit_noop_witness :
  (∀ t : string, tiValue (fst (tiUpdate t (KeyMsg "enter"))) = tiValue t)
  ∧ tiValue (username (initialModel (TI := string) 13 32)) = ""
  ∧ snd (step (initialModel (TI := string) 13 32, AwaitingInput) (KeyMsg "enter"))
    = AwaitingInput.
Proof.
  assert (Henter : ∀ t : string, tiValue (fst (tiUpdate t (KeyMsg "enter"))) = tiValue t)
    by (intros t; reflexivity).
  split; [exact Henter|]. split; [reflexivity|].
  exact (proj1 (C7_empty_submit_noop (initialModel 13 32) AwaitingInput Henter eq_refl)).
Defined.

(** ** Zero counts in [View] *)

Lemma at_cell (g : Grid) i j v :
  0 <= i → 0 <= j → cell g i j = Some v → at_ g (Z.to_nat i) (Z.to_nat j) = v.
Proof. intros Hi Hj Hcell. unfold at_. rewrite !Z2Nat.id by lia. by rewrite Hcell. Qed.

(** C2, amended. The default value of a cell is Go's zero value, the same
    integer a zero-contribution count stores: after a sample with count 0 is
    written, its cell holds 0 and [View] renders it with the no-data text,
    exactly as it renders that cell of a fresh array. Only non-zero counts
    render as numbers. *)
Theorem C2_zero_count_renders_as_no_data (Render : Style → string → string)
    (startDate : GoTime.Time) (g12 g13 : Grid)
    (day : contributionDay) (date : GoTime.Time) :
  wfGrid Rev12.numMonths Rev12.numDays g12 = true →
  wfGrid Rev13.numMonths Rev13.numDays g13 = true →
  GoTime.Parse (Date day) = Ok date →
  ContributionCount day = 0 →
  0 <= Rev13.monthIndexOf startDate date < 13 →
  (∃ g', Rev12.dayBody g12 day = Next g'
         ∧ View12.cellText (at_ g' (Z.to_nat (GoTime.Month date - 1))
                                   (Z.to_nat (GoTime.Day date - 1)))
           = "[  ] "
         ∧ View12.cellText (at_ (zeroGrid 12 31) (Z.to_nat (GoTime.Month date - 1))
                                (Z.to_nat (GoTime.Day date - 1)))
           = "[  ] ")
  ∧ (∃ g', Rev13.dayBody startDate g13 day = Next g'
           ∧ View13.cellText Render (Z.to_nat (GoTime.Day date))
               (at_ g' (Z.to_nat (Rev13.monthIndexOf startDate date))
                       (Z.to_nat (GoTime.Day date)))
             = Render darkGrey " ✗| "
           ∧ View13.cellText Render (Z.to_nat (GoTime.Day date))
               (at_ (zeroGrid 13 32) (Z.to_nat (Rev13.monthIndexOf startDate date))
                                     (Z.to_nat (GoTime.Day date)))
             = Render darkGrey " ✗| ").
Proof.
  intros Hwf12 Hwf13 Hparse Hzero Hin.
  destruct (Parse_range _ _ Hparse) as (_ & Hm & Hd).
  split.
  - destruct (Rev12_dayBody_parsed g12 day date Hwf12 Hparse)
      as (g' & Hbody & _ & Hday & _).
    exists g'. split; [exact Hbody|]. rewrite Hzero in Hday.
    rewrite (at_cell g' _ _ 0), (at_cell (zeroGrid 12 31) _ _ 0); try lia; auto.
    apply zeroGrid_cell; lia.
  - destruct (Rev13_dayBody_stored startDate g13 day date Hwf13 Hparse Hin)
      as (g' & Hbody & _ & Hday & _).
    exists g'. split; [exact Hbody|]. rewrite Hzero in Hday.
    rewrite (at_cell g' _ _ 0), (at_cell (zeroGrid 13 32) _ _ 0); try lia; auto.
    + unfold View13.cellText.
      replace (0 <? Z.to_nat (GoTime.Day date))%nat with true; [by split|].
      symmetry. apply Nat.ltb_lt. lia.
    + apply zeroGrid_cell; lia.
Qed.

Lemma C2_zero_count_renders_as_no_data_witness :
  wfGrid Rev12.numMonths Rev12.numDays (zeroGrid 12 31) = true
  ∧ wfGrid Rev13.numMonths Rev13.numDays sampleGrid = true
  ∧ GoTime.Parse (Date zeroDay) = Ok (GoTime.mkTime 2023 5 25)
  ∧ ContributionCount zeroDay = 0
  ∧ 0 <= Rev13.monthIndexOf (GoTime.AddDateMinusOneYear may2024)
                            (GoTime.mkTime 2023 5 25) < 13
  ∧ ∃ g', Rev12.dayBody (zeroGrid 12 31) zeroDay = Next g'
          ∧ View12.cellText (at_ g' 4 24) = "[  ] "
          ∧ View12.cellText (at_ (zeroGrid 12 31) 4 24) = "[  ] ".
Proof.
  assert (Hwin : 0 <= Rev13.monthIndexOf (GoTime.AddDateMinusOneYear may2024)
                                         (GoTime.mkTime 2023 5 25) < 13)
    by (unfold Rev13.monthIndexOf; simpl; lia).
  repeat (split; [first [reflexivity | exact Hwin]|]).
  exact (proj1 (C2_zero_count_renders_as_no_data plainRender
                  (GoTime.AddDateMinusOneYear may2024) (zeroGrid 12 31) sampleGrid
                  zeroDay (GoTime.mkTime 2023 5 25) eq_refl eq_refl eq_refl eq_refl Hwin)).
Defined.

(** C2 as stated fails: the sample of 25 May 2023 with count 0 is written
    into the grid, and its cell renders as the cell next to it, which
    received no sample; in [main.go] the whole view is the one of an empty
    grid. *)
Lemma C2_counterexample :
  ∃ g12 g13,
    Rev12.fillContributions [mkWeek [zeroDay]] = Next g12
    ∧ Rev13.fillContributions (GoTime.AddDateMinusOneYear may2024) [mkWeek [zeroDay]]
      = Next g13
    ∧ cell g12 4 24 = Some 0
    ∧ View12.cellText (at_ g12 4 24) = View12.cellText (at_ g12 4 25)
    ∧ View12.View (mkModel g12 "" "octocat" None)
      = View12.View (mkModel (zeroGrid 12 31) "" "octocat" None)
    ∧ cell g13 0 25 = Some 0
    ∧ View13.cellText plainRender 25 (at_ g13 0 25)
      = View13.cellText plainRender 26 (at_ g13 0 26).
Proof. do 2 eexists. repeat split; reflexivity. Qed.

(** * Further properties *)

(** ** Dates as text *)

Lemma digitChar_digit c :
  GoTime.isDigit c = true → GoTime.digitChar (GoTime.digit c) = c.
Proof.
  intros Hc. unfold GoTime.digitChar, GoTime.digit.
  replace (48 + (Z.of_nat (nat_of_ascii c) - 48)) with (Z.of_nat (nat_of_ascii c)) by lia.
  rewrite Nat2Z.id. apply ascii_nat_embedding.
Qed.

(** A valid date printed with the layout [2006-01-02] parses back to the
    same date. *)
Lemma Parse_Format20060102 (t : GoTime.Time) :
  GoTime.validDate t = true →
  GoTime.Parse (GoTime.Format20060102 t) = Ok t.
Proof.
  unfold GoTime.validDate. intros Hvalid.
  destruct t as [y m d]. cbn [GoTime.Year GoTime.Month GoTime.Day] in Hvalid.
  assert (Hy : 0 <= y <= 9999) by lia.
  assert (Hm : 1 <= m <= 12) by lia.
  assert (Hd : 1 <= d <= GoTime.daysIn m y) by lia.
  pose proof (daysIn_le_31 m y) as H31.
  unfold GoTime.Parse, GoTime.Format20060102.
  rewrite list_ascii_of_string_of_list_ascii.
  cbn [GoTime.Year GoTime.Month GoTime.Day forallb].
  destruct (digitChar_spec (y / 1000 mod 10)) as (D1 & V1 & _); [apply mod10_range|].
  destruct (digitChar_spec (y / 100 mod 10)) as (D2 & V2 & _); [apply mod10_range|].
  destruct (digitChar_spec (y / 10 mod 10)) as (D3 & V3 & _); [apply mod10_range|].
  destruct (digitChar_spec (y mod 10)) as (D4 & V4 & _); [apply mod10_range|].
  destruct (digitChar_spec (m / 10 mod 10)) as (D5 & V5 & _); [apply mod10_range|].
  destruct (digitChar_spec (m mod 10)) as (D6 & V6 & _); [apply mod10_range|].
  destruct (digitChar_spec (d / 10 mod 10)) as (D7 & V7 & _); [apply mod10_range|].
  destruct (digitChar_spec (d mod 10)) as (D8 & V8 & _); [apply mod10_range|].
  rewrite D1, D2, D3, D4, D5, D6, D7, D8, V1, V2, V3, V4, V5, V6, V7, V8.
  change (GoTime.isDash "-"%char) with true. cbn [andb].
  assert (Hyear : y / 1000 mod 10 * 1000 + y / 100 mod 10 * 100
                  + y / 10 mod 10 * 10 + y mod 10 = y)
    by (Z.div_mod_to_equations; lia).
  assert (Hmonth : m / 10 mod 10 * 10 + m mod 10 = m)
    by (Z.div_mod_to_equations; lia).
  assert (Hday : d / 10 mod 10 * 10 + d mod 10 = d)
    by (Z.div_mod_to_equations; lia).
  rewrite Hyear, Hmonth, Hday.
  replace ((m <? 1) || (12 <? m)) with false by lia.
  replace ((d <? 1) || (GoTime.daysIn m y <? d)) with false by lia.
  reflexivity.
Qed.

Lemma daysIn_other_months month year1 year2 :
  month ≠ 2 → GoTime.daysIn month year1 = GoTime.daysIn month year2.
Proof.
  intros Hm. unfold GoTime.daysIn.
  replace (month =? 2) with false by lia. reflexivity.
Qed.

Lemma daysIn_february year :
  GoTime.daysIn 2 year = 28 ∨ GoTime.daysIn 2 year = 29.
Proof. unfold GoTime.daysIn. destruct (_ && _); auto. Qed.

(** One year before a valid date is a valid date: the same day, or 1 March
    when the day was 29 February. *)
Lemma AddDateMinusOneYear_valid t :
  GoTime.validDate t = true → 1 <= GoTime.Year t →
  GoTime.validDate (GoTime.AddDateMinusOneYear t) = true
  ∧ GoTime.Year (GoTime.AddDateMinusOneYear t) = GoTime.Year t - 1
  ∧ (GoTime.Month (GoTime.AddDateMinusOneYear t) = GoTime.Month t
     ∧ GoTime.Day (GoTime.AddDateMinusOneYear t) = GoTime.Day t
     ∨ GoTime.Month t = 2 ∧ GoTime.Day t = 29
       ∧ GoTime.Month (GoTime.AddDateMinusOneYear t) = 3
       ∧ GoTime.Day (GoTime.AddDateMinusOneYear t) = 1).
Proof.
  unfold GoTime.validDate, GoTime.AddDateMinusOneYear.
  destruct t as [y m d]. cbn [GoTime.Year GoTime.Month GoTime.Day].
  intros Hvalid Hy.
  destruct (d <=? GoTime.daysIn m (y - 1)) eqn:Hfits;
    cbn [GoTime.Year GoTime.Month GoTime.Day].
  - split; [lia|]. split; [reflexivity|]. left. auto.
  - assert (Hm : m = 2).
    { destruct (decide (m = 2)) as [|Hne]; [done|].
      pose proof (daysIn_other_months m y (y - 1) Hne). lia. }
    subst m.
    destruct (daysIn_february y), (daysIn_february (y - 1)); try lia.
    assert (d = 29) by lia. subst d.
    replace (GoTime.daysIn 2 (y - 1)) with 28 by lia.
    split; [|split; [reflexivity|right; repeat split; lia]].
    change (GoTime.daysIn (2 + 1) (y - 1)) with 31. lia.
Qed.



(** [Parse] accepts only the text [Format("2006-01-02")] prints. *)
Lemma Parse_canonical value date :
  GoTime.Parse value = Ok date → GoTime.Format20060102 date = value.
Proof.
  unfold GoTime.Parse.
  destruct (list_ascii_of_string value)
    as [|y1 [|y2 [|y3 [|y4 [|s1 [|m1 [|m2 [|s2 [|d1 [|d2 [|x l]]]]]]]]]]] eqn:Hchars;
    try discriminate.
  destruct (forallb _ _ && _ && _) eqn:Hchk; [|discriminate].
  apply andb_prop in Hchk as [Hchk Hs2]. apply andb_prop in Hchk as [Hchk Hs1].
  apply Ascii.eqb_eq in Hs1, Hs2. subst s1 s2.
  cbn [forallb] in Hchk.
  apply andb_prop in Hchk as [Hy1 Hchk]. apply andb_prop in Hchk as [Hy2 Hchk].
  apply andb_prop in Hchk as [Hy3 Hchk]. apply andb_prop in Hchk as [Hy4 Hchk].
  apply andb_prop in Hchk as [Hm1 Hchk]. apply andb_prop in Hchk as [Hm2 Hchk].
  apply andb_prop in Hchk as [Hd1 Hchk]. apply andb_prop in Hchk as [Hd2 _].
  pose proof (isDigit_digit _ Hy1). pose proof (isDigit_digit _ Hy2).
  pose proof (isDigit_digit _ Hy3). pose proof (isDigit_digit _ Hy4).
  pose proof (isDigit_digit _ Hm1). pose proof (isDigit_digit _ Hm2).
  pose proof (isDigit_digit _ Hd1). pose proof (isDigit_digit _ Hd2).
  destruct (_ || _); [discriminate|].
  destruct (_ || _); [discriminate|].
  intros [= <-]. unfold GoTime.Format20060102.
  cbn [GoTime.Year GoTime.Month GoTime.Day].
  rewrite <- (string_of_list_ascii_of_string value), Hchars.
  set (a1 := GoTime.digit y1) in *. set (a2 := GoTime.digit y2) in *.
  set (a3 := GoTime.digit y3) in *. set (a4 := GoTime.digit y4) in *.
  set (b1 := GoTime.digit m1) in *. set (b2 := GoTime.digit m2) in *.
  set (c1 := GoTime.digit d1) in *. set (c2 := GoTime.digit d2) in *.
  replace ((a1 * 1000 + a2 * 100 + a3 * 10 + a4) / 1000 mod 10) with a1
    by (Z.div_mod_to_equations; lia).
  replace ((a1 * 1000 + a2 * 100 + a3 * 10 + a4) / 100 mod 10) with a2
    by (Z.div_mod_to_equations; lia).
  replace ((a1 * 1000 + a2 * 100 + a3 * 10 + a4) / 10 mod 10) with a3
    by (Z.div_mod_to_equations; lia).
  replace ((a1 * 1000 + a2 * 100 + a3 * 10 + a4) mod 10) with a4
    by (Z.div_mod_to_equations; lia).
  replace ((b1 * 10 + b2) / 10 mod 10) with b1 by (Z.div_mod_to_equations; lia).
  replace ((b1 * 10 + b2) mod 10) with b2 by (Z.div_mod_to_equations; lia).
  replace ((c1 * 10 + c2) / 10 mod 10) with c1 by (Z.div_mod_to_equations; lia).
  replace ((c1 * 10 + c2) mod 10) with c2 by (Z.div_mod_to_equations; lia).
  subst a1 a2 a3 a4 b1 b2 c1 c2.
  by rewrite !digitChar_digit.
Qed.

(** ** The window of the later revisions *)



(** X3. In the later revisions two samples with different date strings never
    share a cell: the row and the column determine the date, and no sample
    is stored in the label column 0. *)
Theorem X3_distinct_dates_distinct_cells (startDate : GoTime.Time)
    (day1 day2 : contributionDay) (date1 date2 : GoTime.Time) :
  GoTime.Parse (Date day1) = Ok date1 →
  GoTime.Parse (Date day2) = Ok date2 →
  Date day1 ≠ Date day2 →
  (Rev13.monthIndexOf startDate date1, GoTime.Day date1)
  ≠ (Rev13.monthIndexOf startDate date2, GoTime.Day date2)
  ∧ GoTime.Day date1 ≠ 0.
Proof.
  intros Hparse1 Hparse2 Hne.
  destruct (Parse_range _ _ Hparse1) as (_ & Hm1 & Hd1).
  destruct (Parse_range _ _ Hparse2) as (_ & Hm2 & _).
  split; [|lia].
  intros [= Hrow Hcol]. apply Hne.
  destruct (monthIndexOf_injective startDate date1 date2 Hm1 Hm2 Hrow) as [Hy Hm].
  rewrite <- (Parse_canonical _ _ Hparse1), <- (Parse_canonical _ _ Hparse2).
  destruct date1, date2. cbn in *. by subst.
Qed.

Lemma X3_distinct_dates_distinct_cells_witness :
  GoTime.Parse (Date firstDay) = Ok (GoTime.mkTime 2023 5 20)
  ∧ GoTime.Parse (Date lastDay) = Ok may2024
  ∧ Date firstDay ≠ Date lastDay
  ∧ (Rev13.monthIndexOf (GoTime.AddDateMinusOneYear may2024) (GoTime.mkTime 2023 5 20),
     GoTime.Day (GoTime.mkTime 2023 5 20))
    ≠ (Rev13.monthIndexOf (GoTime.AddDateMinusOneYear may2024) may2024,
       GoTime.Day may2024).
Proof.
  assert (Hne : Date firstDay ≠ Date lastDay) by discriminate.
  split; [reflexivity|]. split; [reflexivity|]. split; [exact Hne|].
  exact (proj1 (X3_distinct_dates_distinct_cells (GoTime.AddDateMinusOneYear may2024)
                  firstDay lastDay (GoTime.mkTime 2023 5 20) may2024
                  eq_refl eq_refl Hne)).
Defined.

(** ** The calendar rows of [main.go] *)

(** A second store into the same cell replaces the first. *)
Lemma store_store_same rows cols (g : Grid) i j v1 v2 :
  wfGrid rows cols g = true →
  0 <= i < Z.of_nat rows → 0 <= j < Z.of_nat cols →
  (let! g1 := store g i j v1 in store g1 i j v2) = store g i j v2.
Proof.
  intros [Hlen Hrows]%wfGrid_spec Hi Hj.
  destruct (lookup_lt_is_Some_2 g (Z.to_nat i)) as [row Hrow]; [lia|].
  pose proof (Hrows _ _ Hrow) as Hcols.
  unfold store. rewrite Hrow.
  replace ((0 <=? i) && (0 <=? j) && (j <? Z.of_nat (length row))) with true by lia.
  cbn [flow_bind]. rewrite list_lookup_insert_eq by lia.
  rewrite length_insert.
  replace ((0 <=? i) && (0 <=? j) && (j <? Z.of_nat (length row))) with true by lia.
  by rewrite !list_insert_insert_eq.
Qed.

(** Two samples of the same month and day, one after the other. *)
Lemma Rev12_dayBody_twice (g : Grid)
    (day1 day2 : contributionDay) (date1 date2 : GoTime.Time) :
  wfGrid Rev12.numMonths Rev12.numDays g = true →
  GoTime.Parse (Date day1) = Ok date1 →
  GoTime.Parse (Date day2) = Ok date2 →
  GoTime.Month date1 = GoTime.Month date2 →
  GoTime.Day date1 = GoTime.Day date2 →
  (let! g1 := Rev12.dayBody g day1 in Rev12.dayBody g1 day2) = Rev12.dayBody g day2.
Proof.
  intros Hwf Hparse1 Hparse2 Hm Hd.
  destruct (Parse_range _ _ Hparse1) as (_ & Hm1 & Hd1).
  unfold Rev12.dayBody. rewrite Hparse1, Hparse2, <- Hm, <- Hd.
  apply (store_store_same _ _ g _ _ _ _ Hwf);
    unfold Rev12.numMonths, Rev12.numDays; lia.
Qed.

(** X4. [main.go] does not read the year of a sample: two consecutive
    samples of the same month and day are stored in the same cell, and the
    later one replaces the earlier, as if the earlier had not been in the
    reply. *)
Theorem X4_rev12_same_day_overwrites (g : Grid)
    (day1 day2 : contributionDay) (date1 date2 : GoTime.Time)
    (rest : list contributionDay) :
  wfGrid Rev12.numMonths Rev12.numDays g = true →
  GoTime.Parse (Date day1) = Ok date1 →
  GoTime.Parse (Date day2) = Ok date2 →
  GoTime.Month date1 = GoTime.Month date2 →
  GoTime.Day date1 = GoTime.Day date2 →
  range Rev12.dayBody g (day1 :: day2 :: rest) = range Rev12.dayBody g (day2 :: rest).
Proof.
  intros Hwf Hparse1 Hparse2 Hm Hd.
  pose proof (Rev12_dayBody_twice g day1 day2 date1 date2 Hwf Hparse1 Hparse2 Hm Hd)
    as Htwice.
  cbn [range].
  destruct (Rev12.dayBody g day1) as [g1|o]; cbn [flow_bind] in *.
  - by rewrite Htwice.
  - by rewrite <- Htwice.
Qed.

Lemma X4_rev12_same_day_overwrites_witness :
  wfGrid Rev12.numMonths Rev12.numDays (zeroGrid 12 31) = true
  ∧ GoTime.Parse (Date firstDay) = Ok (GoTime.mkTime 2023 5 20)
  ∧ GoTime.Parse (Date lastDay) = Ok may2024
  ∧ GoTime.Month (GoTime.mkTime 2023 5 20) = GoTime.Month may2024
  ∧ GoTime.Day (GoTime.mkTime 2023 5 20) = GoTime.Day may2024
  ∧ range Rev12.dayBody (zeroGrid 12 31) [firstDay; lastDay; inWindowDay]
    = range Rev12.dayBody (zeroGrid 12 31) [lastDay; inWindowDay].
Proof.
  repeat (split; [reflexivity|]).
  exact (X4_rev12_same_day_overwrites (zeroGrid 12 31) firstDay lastDay
           (GoTime.mkTime 2023 5 20) may2024 [inWindowDay]
           eq_refl eq_refl eq_refl eq_refl eq_refl).
Defined.

(** X5. In [main.go] the first and the last day of the range the request
    asks for meet in one cell whenever the current day is not 29 February:
    the count of the anchor day is replaced by the count of the current
    day. *)
Theorem X5_rev12_range_ends_collide (w : World) (g : Grid) (count1 count2 : Z) :
  GoTime.validDate (now w) = true → 1 <= GoTime.Year (now w) →
  GoTime.Day (now w) <= GoTime.daysIn (GoTime.Month (now w)) (GoTime.Year (now w) - 1) →
  wfGrid Rev12.numMonths Rev12.numDays g = true →
  ∃ g',
    range Rev12.dayBody g [mkDay (fromDate w) count1; mkDay (currentDate w) count2]
    = Next g'
    ∧ range Rev12.dayBody g [mkDay (currentDate w) count2] = Next g'
    ∧ cell g' (GoTime.Month (now w) - 1) (GoTime.Day (now w) - 1) = Some count2.
Proof.
  intros Hvalid Hy Hfits Hwf.
  assert (Hcur : GoTime.Parse (currentDate w) = Ok (now w))
    by (by apply Parse_Format20060102).
  assert (Hfrom : GoTime.Parse (fromDate w) = Ok (GoTime.AddDateMinusOneYear (now w)))
    by (apply Parse_Format20060102; by apply AddDateMinusOneYear_valid).
  assert (Hanchor : GoTime.AddDateMinusOneYear (now w)
                    = GoTime.mkTime (GoTime.Year (now w) - 1) (GoTime.Month (now w))
                                    (GoTime.Day (now w))).
  { unfold GoTime.AddDateMinusOneYear.
    by replace (GoTime.Day (now w) <=? _) with true by lia. }
  rewrite Hanchor in Hfrom.
  pose proof (Rev12_dayBody_twice g (mkDay (fromDate w) count1)
                (mkDay (currentDate w) count2) _ _ Hwf Hfrom Hcur eq_refl eq_refl)
    as Htwice.
  destruct (Rev12_dayBody_parsed g (mkDay (currentDate w) count2) (now w) Hwf Hcur)
    as (g' & Hbody & _ & Hcell & _).
  destruct (Rev12_dayBody_parsed g (mkDay (fromDate w) count1) _ Hwf Hfrom)
    as (g1 & Hbody1 & _).
  exists g'. cbn [range]. rewrite Hbody1 in *. cbn [flow_bind] in *.
  rewrite Htwice, Hbody. auto.
Qed.

Lemma X5_rev12_range_ends_collide_witness :
  GoTime.validDate (now sampleWorld) = true
  ∧ 1 <= GoTime.Year (now sampleWorld)
  ∧ GoTime.Day (now sampleWorld)
    <= GoTime.daysIn (GoTime.Month (now sampleWorld)) (GoTime.Year (now sampleWorld) - 1)
  ∧ wfGrid Rev12.numMonths Rev12.numDays (zeroGrid 12 31) = true
  ∧ ∃ g',
      range Rev12.dayBody (zeroGrid 12 31)
            [mkDay (fromDate sampleWorld) 3; mkDay (currentDate sampleWorld) 9]
      = Next g'
      ∧ range Rev12.dayBody (zeroGrid 12 31) [mkDay (currentDate sampleWorld) 9]
        = Next g'
      ∧ cell g' (GoTime.Month (now sampleWorld) - 1) (GoTime.Day (now sampleWorld) - 1)
        = Some 9.
Proof.
  assert (Hy : 1 <= GoTime.Year (now sampleWorld)) by (simpl; lia).
  assert (Hfits : GoTime.Day (now sampleWorld)
                  <= GoTime.daysIn (GoTime.Month (now sampleWorld))
                                   (GoTime.Year (now sampleWorld) - 1))
    by (vm_compute; discriminate).
  split; [reflexivity|]. split; [exact Hy|]. split; [exact Hfits|].
  split; [reflexivity|].
  exact (X5_rev12_range_ends_collide sampleWorld (zeroGrid 12 31) 3 9
           eq_refl Hy Hfits eq_refl).
Defined.

(** ** Last write wins *)

(** Two arrays of one shape with the same cells are the same array. *)
Lemma grid_ext rows cols (g1 g2 : Grid) :
  wfGrid rows cols g1 = true → wfGrid rows cols g2 = true →
  (∀ i j, 0 <= i < Z.of_nat rows → 0 <= j < Z.of_nat cols → cell g1 i j = cell g2 i j) →
  g1 = g2.
Proof.
  intros [Hlen1 Hrows1]%wfGrid_spec [Hlen2 Hrows2]%wfGrid_spec Hcells.
  apply list_eq. intros i.
  destruct (decide (i < rows)%nat) as [Hi|Hi].
  - destruct (lookup_lt_is_Some_2 g1 i) as [r1 Hr1]; [lia|].
    destruct (lookup_lt_is_Some_2 g2 i) as [r2 Hr2]; [lia|].
    rewrite Hr1, Hr2. f_equal. apply list_eq. intros j.
    destruct (decide (j < cols)%nat) as [Hj|Hj].
    + specialize (Hcells (Z.of_nat i) (Z.of_nat j) ltac:(lia) ltac:(lia)).
      unfold cell in Hcells.
      replace ((0 <=? Z.of_nat i) && (0 <=? Z.of_nat j)) with true in Hcells by lia.
      rewrite !Nat2Z.id, Hr1, Hr2 in Hcells. exact Hcells.
    + rewrite !lookup_ge_None_2; [done| |].
      * rewrite (Hrows2 _ _ Hr2). lia.
      * rewrite (Hrows1 _ _ Hr1). lia.
  - rewrite !lookup_ge_None_2; [done|lia|lia].
Qed.

Lemma lastWrite_app {A : Type} (target : A → option (Z * Z)) (value : A → Z) xs ys i j :
  lastWrite target value (xs ++ ys) i j
  = match lastWrite target value ys i j with
    | Some v => Some v
    | None => lastWrite target value xs i j
    end.
Proof.
  induction xs as [|x xs IH]; cbn [app lastWrite].
  - by destruct (lastWrite target value ys i j).
  - rewrite IH. by destruct (lastWrite target value ys i j).
Qed.

Section LastWrite.
Variable body : Grid → contributionDay → flow Grid.
Variable target : contributionDay → option (Z * Z).
Variable value : contributionDay → Z.
Variables rows cols : nat.
Variable watched : Z → Z → Prop.

Hypothesis body_hit : ∀ (g : Grid) day i j,
  wfGrid rows cols g = true → target day = Some (i, j) →
  ∃ g', body g day = Next g'
        ∧ wfGrid rows cols g' = true
        ∧ cell g' i j = Some (value day)
        ∧ ∀ i' j', watched i' j' → (i', j') ≠ (i, j) → cell g' i' j' = cell g i' j'.

Hypothesis body_miss : ∀ (g : Grid) day g',
  wfGrid rows cols g = true → target day = None → body g day = Next g' →
  wfGrid rows cols g' = true ∧ ∀ i j, watched i j → cell g' i j = cell g i j.

(** After the loop a watched cell holds the value of the last sample aimed
    at it, or what it held before. *)
Lemma range_lastWrite days :
  ∀ g0 g : Grid,
    wfGrid rows cols g0 = true →
    range body g0 days = Next g →
    wfGrid rows cols g = true
    ∧ ∀ i j, watched i j →
        cell g i j = match lastWrite target value days i j with
                     | Some v => Some v
                     | None => cell g0 i j
                     end.
Proof.
  induction days as [|day days IH]; intros g0 g Hwf Hrun.
  - cbn in Hrun. injection Hrun as <-. auto.
  - cbn [range] in Hrun.
    destruct (body g0 day) as [g1|o] eqn:Hbody; [|discriminate].
    cbn [flow_bind] in Hrun.
    destruct (target day) as [[i0 j0]|] eqn:Htarget.
    + destruct (body_hit g0 day i0 j0 Hwf Htarget) as (g1' & Hbody' & Hwf1 & Hset & Hrest).
      rewrite Hbody in Hbody'. injection Hbody' as <-.
      destruct (IH g1 g Hwf1 Hrun) as [Hwfg Hcells].
      split; [exact Hwfg|]. intros i j Hw. rewrite (Hcells i j Hw).
      cbn [lastWrite]. rewrite Htarget.
      destruct (lastWrite target value days i j); [reflexivity|].
      destruct ((i0 =? i) && (j0 =? j)) eqn:Hhit.
      * assert (i0 = i ∧ j0 = j) as [-> ->] by lia. exact Hset.
      * apply Hrest; [exact Hw|]. intros [= -> ->]. lia.
    + destruct (body_miss g0 day g1 Hwf Htarget Hbody) as [Hwf1 Hsame].
      destruct (IH g1 g Hwf1 Hrun) as [Hwfg Hcells].
      split; [exact Hwfg|]. intros i j Hw. rewrite (Hcells i j Hw).
      cbn [lastWrite]. rewrite Htarget.
      destruct (lastWrite target value days i j); [reflexivity|].
      by apply Hsame.
Qed.

End LastWrite.

Lemma target12_parsed day i j :
  target12 day = Some (i, j) →
  ∃ date, GoTime.Parse (Date day) = Ok date
          ∧ i = GoTime.Month date - 1 ∧ j = GoTime.Day date - 1.
Proof.
  unfold target12. destruct (GoTime.Parse (Date day)) as [date|e]; [|discriminate].
  intros [= <- <-]. eauto.
Qed.

Lemma row13_parsed startDate day monthIndex date :
  row13 startDate day = Some (monthIndex, date) →
  GoTime.Parse (Date day) = Ok date
  ∧ monthIndex = Rev13.monthIndexOf startDate date
  ∧ 0 <= monthIndex < 13.
Proof.
  unfold row13. destruct (GoTime.Parse (Date day)) as [date'|e]; [|discriminate].
  destruct (_ && _) eqn:Hin; [|discriminate].
  intros [= <- <-]. repeat split; lia.
Qed.

Lemma row13_skipped startDate (g g' : Grid) day :
  row13 startDate day = None →
  Rev13.dayBody startDate g day = Next g' → g' = g.
Proof.
  unfold row13. intros Hrow Hbody.
  destruct (GoTime.Parse (Date day)) as [date|e] eqn:Hparse.
  - destruct (_ && _) eqn:Hin; [discriminate|].
    rewrite (Rev13_dayBody_skipped startDate g day date Hparse) in Hbody by lia.
    by injection Hbody.
  - rewrite (Rev13_dayBody_malformed startDate g day e Hparse) in Hbody. discriminate.
Qed.

(** X6. [main.go] builds the zero array overwritten sample by sample: when
    the loops end, every cell holds the count of the last sample of the
    reply with that month and day, and 0 when the reply has none. *)
Theorem X6_rev12_last_write_wins (weeks : list week) (g : Grid) (i j : Z) :
  Rev12.fillContributions weeks = Next g →
  0 <= i < 12 → 0 <= j < 31 →
  cell g i j
  = Some (default 0 (lastWrite target12 ContributionCount (daysOf weeks) i j)).
Proof.
  intros Hfill Hi Hj.
  unfold Rev12.fillContributions in Hfill. rewrite range_weeks in Hfill.
  destruct (range_lastWrite Rev12.dayBody target12 ContributionCount
              Rev12.numMonths Rev12.numDays (fun _ _ => True)) with
    (days := daysOf weeks) (g0 := zeroGrid Rev12.numMonths Rev12.numDays) (g := g)
    as [_ Hcells]; [| |apply zeroGrid_wf|exact Hfill|].
  - intros g1 day i1 j1 Hwf (date & Hparse & -> & ->)%target12_parsed.
    destruct (Rev12_dayBody_parsed g1 day date Hwf Hparse) as (g' & ? & ? & ? & Hrest).
    exists g'. repeat split; auto.
  - intros g1 day g' Hwf Htarget Hbody. unfold target12 in Htarget.
    destruct (GoTime.Parse (Date day)) as [date|e] eqn:Hparse; [discriminate|].
    rewrite (Rev12_dayBody_malformed g1 day e Hparse) in Hbody. discriminate.
  - rewrite (Hcells i j I).
    destruct (lastWrite _ _ _ i j); [reflexivity|].
    apply zeroGrid_cell; unfold Rev12.numMonths, Rev12.numDays; lia.
Qed.

Lemma X6_rev12_last_write_wins_witness :
  Rev12.fillContributions [mkWeek [firstDay; inWindowDay; lastDay]] = Next collidedGrid
  ∧ 0 <= 4 < 12 ∧ 0 <= 19 < 31
  ∧ cell collidedGrid 4 19 = Some 9.
Proof.
  assert (Hi : 0 <= 4 < 12) by lia. assert (Hj : 0 <= 19 < 31) by lia.
  split; [reflexivity|]. split; [exact Hi|]. split; [exact Hj|].
  exact (X6_rev12_last_write_wins [mkWeek [firstDay; inWindowDay; lastDay]]
           collidedGrid 4 19 eq_refl Hi Hj).
Defined.

Lemma Rev13_counts startDate days (g0 g : Grid) :
  wfGrid Rev13.numMonths Rev13.numDays g0 = true →
  range (Rev13.dayBody startDate) g0 days = Next g →
  wfGrid Rev13.numMonths Rev13.numDays g = true
  ∧ ∀ i j, 1 <= j →
      cell g i j
      = match lastWrite (target13 startDate) ContributionCount days i j with
        | Some v => Some v
        | None => cell g0 i j
        end.
Proof.
  apply (range_lastWrite (Rev13.dayBody startDate) (target13 startDate)
           ContributionCount Rev13.numMonths Rev13.numDays (fun _ j => 1 <= j)).
  - intros g1 day i1 j1 Hwf Htarget. unfold target13 in Htarget.
    destruct (row13 startDate day) as [[mi date]|] eqn:Hrow; [|discriminate].
    injection Htarget as <- <-.
    destruct (row13_parsed _ _ _ _ Hrow) as (Hparse & -> & Hin).
    destruct (Rev13_dayBody_stored startDate g1 day date Hwf Hparse Hin)
      as (g' & ? & ? & ? & _ & Hrest).
    exists g'. repeat split; auto.
    intros i' j' Hj' Hne. apply Hrest.
    destruct (decide (i' = Rev13.monthIndexOf startDate date)) as [->|]; [|by left].
    right. split; [congruence|lia].
  - intros g1 day g' Hwf Htarget Hbody. unfold target13 in Htarget.
    destruct (row13 startDate day) as [[mi date]|] eqn:Hrow; [discriminate|].
    by rewrite (row13_skipped startDate g1 g' day Hrow Hbody).
Qed.

Lemma Rev13_label_writes startDate days (g0 g : Grid) :
  wfGrid Rev13.numMonths Rev13.numDays g0 = true →
  range (Rev13.dayBody startDate) g0 days = Next g →
  wfGrid Rev13.numMonths Rev13.numDays g = true
  ∧ ∀ i j, j = 0 →
      cell g i j
      = match lastWrite (labelTarget13 startDate) yearMonthOf days i j with
        | Some v => Some v
        | None => cell g0 i j
        end.
Proof.
  apply (range_lastWrite (Rev13.dayBody startDate) (labelTarget13 startDate)
           yearMonthOf Rev13.numMonths Rev13.numDays (fun _ j => j = 0)).
  - intros g1 day i1 j1 Hwf Htarget. unfold labelTarget13 in Htarget.
    destruct (row13 startDate day) as [[mi date]|] eqn:Hrow; [|discriminate].
    injection Htarget as <- <-.
    destruct (row13_parsed _ _ _ _ Hrow) as (Hparse & -> & Hin).
    destruct (Rev13_dayBody_stored startDate g1 day date Hwf Hparse Hin)
      as (g' & ? & ? & _ & Hlabel & Hrest).
    exists g'. unfold yearMonthOf. rewrite Hparse. repeat split; auto.
    intros i' j' -> Hne. apply Hrest. left. congruence.
  - intros g1 day g' Hwf Htarget Hbody. unfold labelTarget13 in Htarget.
    destruct (row13 startDate day) as [[mi date]|] eqn:Hrow; [discriminate|].
    by rewrite (row13_skipped startDate g1 g' day Hrow Hbody).
Qed.

(** X7. The later revisions build the zero array overwritten sample by
    sample: when the loops end, a day cell holds the count of the last
    sample of the window with that row and day, and column 0 of a row holds
    the label of the last sample of the window in that row; a cell no sample
    of the window is aimed at holds 0. *)
Theorem X7_rev13_last_write_wins (startDate : GoTime.Time) (weeks : list week)
    (g : Grid) (i j : Z) :
  Rev13.fillContributions startDate weeks = Next g →
  0 <= i < 13 → 0 <= j < 32 →
  cell g i j
  = Some (default 0
            (if j =? 0
             then lastWrite (labelTarget13 startDate) yearMonthOf (daysOf weeks) i 0
             else lastWrite (target13 startDate) ContributionCount (daysOf weeks) i j)).
Proof.
  intros Hfill Hi Hj.
  unfold Rev13.fillContributions in Hfill. rewrite range_weeks in Hfill.
  pose proof (zeroGrid_wf Rev13.numMonths Rev13.numDays) as Hwf.
  assert (Hzero : cell (zeroGrid Rev13.numMonths Rev13.numDays) i j = Some 0)
    by (apply zeroGrid_cell; unfold Rev13.numMonths, Rev13.numDays; lia).
  destruct (j =? 0) eqn:Hcol.
  - assert (j = 0) as -> by lia.
    destruct (Rev13_label_writes startDate _ _ g Hwf Hfill) as [_ Hcells].
    rewrite (Hcells i 0 eq_refl). by destruct (lastWrite _ _ _ i 0).
  - destruct (Rev13_counts startDate _ _ g Hwf Hfill) as [_ Hcells].
    rewrite (Hcells i j) by lia. by destruct (lastWrite _ _ _ i j).
Qed.

Lemma X7_rev13_last_write_wins_witness :
  Rev13.fillContributions (GoTime.AddDateMinusOneYear may2024) sampleWeeks
  = Next sampleGrid_labelled
  ∧ 0 <= 0 < 13 ∧ 0 <= 25 < 32
  ∧ cell sampleGrid_labelled 0 25 = Some 4.
Proof.
  assert (Hi : 0 <= 0 < 13) by lia. assert (Hj : 0 <= 25 < 32) by lia.
  split; [reflexivity|]. split; [exact Hi|]. split; [exact Hj|].
  exact (X7_rev13_last_write_wins (GoTime.AddDateMinusOneYear may2024) sampleWeeks
           sampleGrid_labelled 0 25 eq_refl Hi Hj).
Defined.

(** ** When the loops succeed *)

Lemma Rev12_range_parsed days :
  ∀ g0 g : Grid,
    range Rev12.dayBody g0 days = Next g →
    ∀ day, In day days → ∃ date, GoTime.Parse (Date day) = Ok date.
Proof.
  induction days as [|d days IH]; intros g0 g Hrun day Hday; [destruct Hday|].
  cbn [range] in Hrun.
  destruct (GoTime.Parse (Date d)) as [date|e] eqn:Hparse.
  - destruct Hday as [<-|Hday]; [eauto|].
    destruct (Rev12.dayBody g0 d) as [g1|o]; [|discriminate]. eauto.
  - rewrite (Rev12_dayBody_malformed g0 d e Hparse) in Hrun. discriminate.
Qed.

Lemma Rev12_range_total days :
  ∀ g0 : Grid,
    wfGrid Rev12.numMonths Rev12.numDays g0 = true →
    (∀ day, In day days → ∃ date, GoTime.Parse (Date day) = Ok date) →
    ∃ g, range Rev12.dayBody g0 days = Next g.
Proof.
  induction days as [|d days IH]; intros g0 Hwf Hall; [by exists g0|].
  destruct (Hall d (or_introl eq_refl)) as [date Hparse].
  destruct (Rev12_dayBody_parsed g0 d date Hwf Hparse) as (g1 & Hbody & Hwf1 & _).
  cbn [range]. rewrite Hbody. cbn [flow_bind].
  apply (IH g1 Hwf1). intros day Hday. apply Hall. by right.
Qed.

Lemma Rev13_range_parsed startDate days :
  ∀ g0 g : Grid,
    range (Rev13.dayBody startDate) g0 days = Next g →
    ∀ day, In day days → ∃ date, GoTime.Parse (Date day) = Ok date.
Proof.
  induction days as [|d days IH]; intros g0 g Hrun day Hday; [destruct Hday|].
  cbn [range] in Hrun.
  destruct (GoTime.Parse (Date d)) as [date|e] eqn:Hparse.
  - destruct Hday as [<-|Hday]; [eauto|].
    destruct (Rev13.dayBody startDate g0 d) as [g1|o]; [|discriminate]. eauto.
  - rewrite (Rev13_dayBody_malformed startDate g0 d e Hparse) in Hrun. discriminate.
Qed.

Lemma Rev13_dayBody_parsed_next startDate (g : Grid) day date :
  wfGrid Rev13.numMonths Rev13.numDays g = true →
  GoTime.Parse (Date day) = Ok date →
  ∃ g', Rev13.dayBody startDate g day = Next g'
        ∧ wfGrid Rev13.numMonths Rev13.numDays g' = true.
Proof.
  intros Hwf Hparse.
  destruct (decide (0 <= Rev13.monthIndexOf startDate date < 13)) as [Hin|Hout].
  - destruct (Rev13_dayBody_stored startDate g day date Hwf Hparse Hin)
      as (g' & Hbody & Hwf' & _).
    eauto.
  - rewrite (Rev13_dayBody_skipped startDate g day date Hparse Hout). eauto.
Qed.

Lemma Rev13_range_total startDate days :
  ∀ g0 : Grid,
    wfGrid Rev13.numMonths Rev13.numDays g0 = true →
    (∀ day, In day days → ∃ date, GoTime.Parse (Date day) = Ok date) →
    ∃ g, range (Rev13.dayBody startDate) g0 days = Next g.
Proof.
  induction days as [|d days IH]; intros g0 Hwf Hall; [by exists g0|].
  destruct (Hall d (or_introl eq_refl)) as [date Hparse].
  destruct (Rev13_dayBody_parsed_next startDate g0 d date Hwf Hparse)
    as (g1 & Hbody & Hwf1).
  cbn [range]. rewrite Hbody. cbn [flow_bind].
  apply (IH g1 Hwf1). intros day Hday. apply Hall. by right.
Qed.

(** X8. A command succeeds exactly when the request succeeded and every
    date of the reply parses, wherever the sample lies: one malformed date,
    even outside the window, turns the whole fetch into a failure. *)
Theorem X8_success_iff_all_dates_parse (username : string) (w : World) :
  ((∃ g, Rev12.fetchData username w = Returns (fetchMsg.mk g None))
   ↔ ∃ weeks, reply w = Ok weeks
              ∧ ∀ day, In day (daysOf weeks) → ∃ date, GoTime.Parse (Date day) = Ok date)
  ∧ ((∃ g, Rev13.fetchData username w = Returns (fetchMsg.mk g None))
     ↔ ∃ weeks, reply w = Ok weeks
                ∧ ∀ day, In day (daysOf weeks) → ∃ date, GoTime.Parse (Date day) = Ok date).
Proof.
  split; split.
  - intros [g Hfetch]. unfold Rev12.fetchData in Hfetch.
    destruct (reply w) as [weeks|e]; [|discriminate].
    exists weeks. split; [reflexivity|].
    pose proof (Rev12_fill_safe weeks) as Hsafe.
    unfold Rev12.fillContributions in *. rewrite range_weeks in *.
    destruct (range Rev12.dayBody _ (daysOf weeks)) as [g'|o] eqn:Hrun.
    + by apply (Rev12_range_parsed _ _ _ Hrun).
    + destruct Hsafe as [e ->]. discriminate.
  - intros (weeks & Hreply & Hall). unfold Rev12.fetchData. rewrite Hreply.
    unfold Rev12.fillContributions. rewrite range_weeks.
    destruct (Rev12_range_total (daysOf weeks) _ (zeroGrid_wf _ _) Hall) as [g ->].
    eauto.
  - intros [g Hfetch]. unfold Rev13.fetchData in Hfetch.
    destruct (reply w) as [weeks|e]; [|discriminate].
    exists weeks. split; [reflexivity|].
    pose proof (Rev13_fill_safe (GoTime.AddDateMinusOneYear (now w)) weeks) as Hsafe.
    unfold Rev13.fillContributions in *. rewrite range_weeks in *.
    destruct (range (Rev13.dayBody _) _ (daysOf weeks)) as [g'|o] eqn:Hrun.
    + by apply (Rev13_range_parsed _ _ _ _ Hrun).
    + destruct Hsafe as [e ->]. discriminate.
  - intros (weeks & Hreply & Hall). unfold Rev13.fetchData. rewrite Hreply.
    unfold Rev13.fillContributions. rewrite range_weeks.
    destruct (Rev13_range_total (GoTime.AddDateMinusOneYear (now w)) (daysOf weeks) _
                (zeroGrid_wf _ _) Hall) as [g ->].
    eauto.
Qed.

(** ** Replies listed twice or in another order *)

Lemma daysOf_app weeks1 weeks2 :
  daysOf (weeks1 ++ weeks2)%list = (daysOf weeks1 ++ daysOf weeks2)%list.
Proof. unfold daysOf. by rewrite map_app, concat_app. Qed.

(** Running the loop of [main.go] again over the grid it built changes
    nothing. *)
Lemma Rev12_range_again days (g : Grid) :
  range Rev12.dayBody (zeroGrid Rev12.numMonths Rev12.numDays) days = Next g →
  range Rev12.dayBody g days = Next g.
Proof.
  intros Hrun.
  pose proof (zeroGrid_wf Rev12.numMonths Rev12.numDays) as Hwf0.
  assert (Hrange : ∀ (g0 g1 : Grid),
             wfGrid Rev12.numMonths Rev12.numDays g0 = true →
             range Rev12.dayBody g0 days = Next g1 →
             wfGrid Rev12.numMonths Rev12.numDays g1 = true
             ∧ ∀ i j, True →
                 cell g1 i j = match lastWrite target12 ContributionCount days i j with
                               | Some v => Some v
                               | None => cell g0 i j
                               end).
  { apply (range_lastWrite Rev12.dayBody target12 ContributionCount
             Rev12.numMonths Rev12.numDays (fun _ _ => True)).
    - intros g1 day i1 j1 Hwf (date & Hparse & -> & ->)%target12_parsed.
      destruct (Rev12_dayBody_parsed g1 day date Hwf Hparse) as (g' & ? & ? & ? & Hrest).
      exists g'. repeat split; auto.
    - intros g1 day g' Hwf Htarget Hbody. unfold target12 in Htarget.
      destruct (GoTime.Parse (Date day)) as [date|e] eqn:Hparse; [discriminate|].
      rewrite (Rev12_dayBody_malformed g1 day e Hparse) in Hbody. discriminate. }
  destruct (Hrange _ g Hwf0 Hrun) as [Hwf Hfirst].
  destruct (Rev12_range_total days g Hwf (Rev12_range_parsed days _ g Hrun)) as [g2 Hagain].
  destruct (Hrange g g2 Hwf Hagain) as [Hwf2 Hsecond].
  rewrite Hagain. f_equal.
  apply (grid_ext _ _ g2 g Hwf2 Hwf). intros i j _ _.
  rewrite (Hsecond i j I), (Hfirst i j I).
  by destruct (lastWrite target12 ContributionCount days i j).
Qed.

(** The same for the later revisions. *)
Lemma Rev13_range_again startDate days (g : Grid) :
  range (Rev13.dayBody startDate) (zeroGrid Rev13.numMonths Rev13.numDays) days = Next g →
  range (Rev13.dayBody startDate) g days = Next g.
Proof.
  intros Hrun.
  pose proof (zeroGrid_wf Rev13.numMonths Rev13.numDays) as Hwf0.
  destruct (Rev13_counts startDate days _ g Hwf0 Hrun) as [Hwf Hcount1].
  destruct (Rev13_label_writes startDate days _ g Hwf0 Hrun) as [_ Hlabel1].
  destruct (Rev13_range_total startDate days g Hwf
              (Rev13_range_parsed startDate days _ g Hrun)) as [g2 Hagain].
  destruct (Rev13_counts startDate days g g2 Hwf Hagain) as [Hwf2 Hcount2].
  destruct (Rev13_label_writes startDate days g g2 Hwf Hagain) as [_ Hlabel2].
  rewrite Hagain. f_equal.
  apply (grid_ext _ _ g2 g Hwf2 Hwf). intros i j _ Hj.
  destruct (decide (j = 0)) as [->|Hcol].
  - rewrite (Hlabel2 i 0 eq_refl), (Hlabel1 i 0 eq_refl).
    by destruct (lastWrite _ _ days i 0).
  - rewrite (Hcount2 i j), (Hcount1 i j) by lia.
    by destruct (lastWrite _ _ days i j).
Qed.

(** X9. Building is idempotent on the reply: a reply that lists all its
    weeks twice gives the same result as the reply itself, in both designs;
    writing the same samples over the finished grid changes no cell. *)
Theorem X9_reply_twice_same_grid (startDate : GoTime.Time) (weeks : list week) :
  Rev12.fillContributions (weeks ++ weeks)%list = Rev12.fillContributions weeks
  ∧ Rev13.fillContributions startDate (weeks ++ weeks)%list
    = Rev13.fillContributions startDate weeks.
Proof.
  unfold Rev12.fillContributions, Rev13.fillContributions.
  rewrite !range_weeks, daysOf_app, !range_app. split.
  - destruct (range Rev12.dayBody _ (daysOf weeks)) as [g|o] eqn:Hrun;
      cbn [flow_bind]; [|reflexivity].
    by apply Rev12_range_again.
  - destruct (range (Rev13.dayBody startDate) _ (daysOf weeks)) as [g|o] eqn:Hrun;
      cbn [flow_bind]; [|reflexivity].
    by apply Rev13_range_again.
Qed.

Lemma lastWrite_Permutation {A : Type} (target : A → option (Z * Z)) (value : A → Z)
    (xs ys : list A) i j :
  Permutation xs ys →
  (∀ x y, In x xs → In y xs →
          target x = Some (i, j) → target y = Some (i, j) → value x = value y) →
  lastWrite target value xs i j = lastWrite target value ys i j.
Proof.
  induction 1 as [|x xs ys Hperm IH|x y xs|xs ys zs Hperm1 IH1 Hperm2 IH2];
    intros Hsame.
  - reflexivity.
  - cbn [lastWrite]. rewrite IH; [reflexivity|].
    intros a b Ha Hb. apply Hsame; by right.
  - cbn [lastWrite]. destruct (lastWrite target value xs i j); [reflexivity|].
    destruct (target x) as [[ix jx]|] eqn:Hx, (target y) as [[iy jy]|] eqn:Hy;
      try reflexivity.
    + destruct ((ix =? i) && (jx =? j)) eqn:Hhitx, ((iy =? i) && (jy =? j)) eqn:Hhity;
        try reflexivity.
      f_equal. apply Hsame; [right; by left|by left| |].
      * rewrite Hx. f_equal. f_equal; lia.
      * rewrite Hy. f_equal. f_equal; lia.
    + by destruct ((ix =? i) && (jx =? j)).
    + by destruct ((iy =? i) && (jy =? j)).
  - rewrite IH1 by exact Hsame. apply IH2.
    intros a b Ha Hb. apply Hsame; by apply (Permutation_in _ (Permutation_sym Hperm1)).
Qed.

Lemma NoDup_map_eq {A B : Type} (f : A → B) (xs : list A) x y :
  NoDup (map f xs) → In x xs → In y xs → f x = f y → x = y.
Proof.
  induction xs as [|a xs IH]; intros Hnodup Hx Hy Hf; [destruct Hx|].
  cbn [map] in Hnodup. inversion Hnodup as [|b l Hnotin Hnodup']. subst b l.
  destruct Hx as [->|Hx], Hy as [->|Hy]; auto.
  - exfalso. apply Hnotin, list_elem_of_In. rewrite Hf. by apply in_map.
  - exfalso. apply Hnotin, list_elem_of_In. rewrite <- Hf. by apply in_map.
Qed.

Lemma row13_same_row startDate day1 day2 i date1 date2 :
  row13 startDate day1 = Some (i, date1) →
  row13 startDate day2 = Some (i, date2) →
  GoTime.Year date1 = GoTime.Year date2 ∧ GoTime.Month date1 = GoTime.Month date2.
Proof.
  intros (Hparse1 & Hi1 & _)%row13_parsed (Hparse2 & Hi2 & _)%row13_parsed.
  destruct (Parse_range _ _ Hparse1) as (_ & Hm1 & _).
  destruct (Parse_range _ _ Hparse2) as (_ & Hm2 & _).
  apply (monthIndexOf_injective startDate); auto. congruence.
Qed.

(** X10. In the later revisions the order of the reply does not matter when
    its date strings are all different: the same days listed in another
    order, or split into weeks differently, build the same grid. *)
Theorem X10_rev13_order_independent (startDate : GoTime.Time)
    (weeks weeks' : list week) (g : Grid) :
  Rev13.fillContributions startDate weeks = Next g →
  Permutation (daysOf weeks) (daysOf weeks') →
  NoDup (map Date (daysOf weeks)) →
  Rev13.fillContributions startDate weeks' = Next g.
Proof.
  unfold Rev13.fillContributions. rewrite !range_weeks.
  intros Hrun Hperm Hnodup.
  pose proof (zeroGrid_wf Rev13.numMonths Rev13.numDays) as Hwf0.
  destruct (Rev13_counts startDate _ _ g Hwf0 Hrun) as [Hwf Hcount].
  destruct (Rev13_label_writes startDate _ _ g Hwf0 Hrun) as [_ Hlabel].
  destruct (Rev13_range_total startDate (daysOf weeks') _ Hwf0) as [g' Hrun'].
  { intros day Hday. apply (Rev13_range_parsed startDate _ _ g Hrun).
    by apply (Permutation_in _ (Permutation_sym Hperm)). }
  destruct (Rev13_counts startDate _ _ g' Hwf0 Hrun') as [Hwf' Hcount'].
  destruct (Rev13_label_writes startDate _ _ g' Hwf0 Hrun') as [_ Hlabel'].
  rewrite Hrun'. f_equal.
  apply (grid_ext _ _ g' g Hwf' Hwf). intros i j _ Hj.
  destruct (decide (j = 0)) as [->|Hcol].
  - rewrite (Hlabel' i 0 eq_refl), (Hlabel i 0 eq_refl).
    rewrite (lastWrite_Permutation _ _ _ _ i 0 Hperm); [reflexivity|].
    intros x y _ _ Hx Hy. unfold labelTarget13 in Hx, Hy.
    destruct (row13 startDate x) as [[ix dx]|] eqn:Hrx; [|discriminate].
    destruct (row13 startDate y) as [[iy dy]|] eqn:Hry; [|discriminate].
    injection Hx as ->. injection Hy as ->.
    destruct (row13_same_row _ _ _ _ _ _ Hrx Hry) as [Hyear Hmonth].
    apply row13_parsed in Hrx as (Hpx & _). apply row13_parsed in Hry as (Hpy & _).
    unfold yearMonthOf. rewrite Hpx, Hpy. congruence.
  - rewrite (Hcount' i j), (Hcount i j) by lia.
    rewrite (lastWrite_Permutation _ _ _ _ i j Hperm); [reflexivity|].
    intros x y Hinx Hiny Hx Hy. unfold target13 in Hx, Hy.
    destruct (row13 startDate x) as [[ix dx]|] eqn:Hrx; [|discriminate].
    destruct (row13 startDate y) as [[iy dy]|] eqn:Hry; [|discriminate].
    injection Hx as -> Hdx. injection Hy as -> Hdy.
    destruct (row13_same_row _ _ _ _ _ _ Hrx Hry) as [Hyear Hmonth].
    apply row13_parsed in Hrx as (Hpx & _). apply row13_parsed in Hry as (Hpy & _).
    assert (Hdate : dx = dy) by (destruct dx, dy; cbn in *; congruence).
    f_equal. apply (NoDup_map_eq Date (daysOf weeks)); auto.
    rewrite <- (Parse_canonical _ _ Hpx), <- (Parse_canonical _ _ Hpy). by rewrite Hdate.
Qed.

Lemma X10_rev13_order_independent_witness :
  Rev13.fillContributions (GoTime.AddDateMinusOneYear may2024)
                          [mkWeek [firstDay; inWindowDay]]
  = Next twoDayGrid
  ∧ Permutation (daysOf [mkWeek [firstDay; inWindowDay]])
                (daysOf [mkWeek [inWindowDay]; mkWeek [firstDay]])
  ∧ NoDup (map Date (daysOf [mkWeek [firstDay; inWindowDay]]))
  ∧ Rev13.fillContributions (GoTime.AddDateMinusOneYear may2024)
                            [mkWeek [inWindowDay]; mkWeek [firstDay]]
    = Next twoDayGrid.
Proof.
  assert (Hperm : Permutation (daysOf [mkWeek [firstDay; inWindowDay]])
                              (daysOf [mkWeek [inWindowDay]; mkWeek [firstDay]]))
    by apply perm_swap.
  assert (Hnodup : NoDup (map Date (daysOf [mkWeek [firstDay; inWindowDay]])))
    by (cbn; repeat (constructor;
                     [rewrite list_elem_of_In; cbn; intuition discriminate|]);
        constructor).
  split; [reflexivity|]. split; [exact Hperm|]. split; [exact Hnodup|].
  exact (X10_rev13_order_independent (GoTime.AddDateMinusOneYear may2024)
           [mkWeek [firstDay; inWindowDay]] [mkWeek [inWindowDay]; mkWeek [firstDay]]
           twoDayGrid eq_refl Hperm Hnodup).
Defined.

(** X11. In the later revisions the samples outside the thirteen months
    have no effect at all: the command returns the same message as for the
    reply with those samples removed. *)
Theorem X11_rev13_window_only (username : string) (clock : GoTime.Time)
    (weeks : list week) :
  Rev13.fetchData username (mkWorld clock (Ok weeks))
  = Rev13.fetchData username
      (mkWorld clock
         (Ok [mkWeek (List.filter
                        (fun d => negb (outOfWindow (GoTime.AddDateMinusOneYear clock) d))
                        (daysOf weeks))])).
Proof.
  unfold Rev13.fetchData, Rev13.fillContributions. cbn [reply now].
  rewrite !range_weeks.
  rewrite (Rev13_fill_window_only (GoTime.AddDateMinusOneYear clock) (daysOf weeks)).
  unfold daysOf at 2. cbn [map concat ContributionDays]. by rewrite app_nil_r.
Qed.

(** ** The label on the screen *)

Lemma allFrom_spec n : ∀ lo f,
  allFrom n lo f = true → ∀ z, lo <= z < lo + Z.of_nat n → f z = true.
Proof.
  induction n as [|n IH]; intros lo f Hall z Hz; [lia|].
  cbn [allFrom] in Hall. apply andb_prop in Hall as [Hlo Hrest].
  destruct (decide (z = lo)) as [->|Hne]; [exact Hlo|].
  apply (IH (lo + 1) f Hrest). lia.
Qed.

Lemma labelShown_all :
  allFrom (Z.to_nat 9000) 1000 (fun year => allFrom 12 1 (labelShown year)) = true.
Proof. vm_compute. reflexivity. Qed.

(** X12. [View] shows the label of a row as the six characters [YYYYMM]
    that [date.Format("200601")] printed in [fetchData], for every date
    with a year from 1000 on. *)
Theorem X12_label_shown_as_formatted (Render : Style → string → string)
    (date : GoTime.Time) :
  1000 <= GoTime.Year date <= 9999 → 1 <= GoTime.Month date <= 12 →
  View13.cellText Render 0 (GoTime.Year date * 100 + GoTime.Month date)
  = "|" ++ Render lightGrey (GoTime.Format200601 date) ++ "| ".
Proof.
  intros Hy Hm.
  pose proof (allFrom_spec _ _ _ labelShown_all (GoTime.Year date)) as Hyear.
  rewrite Z2Nat.id in Hyear by lia. specialize (Hyear ltac:(lia)).
  pose proof (allFrom_spec _ _ _ Hyear (GoTime.Month date) ltac:(lia)) as Hshown.
  unfold labelShown in Hshown. apply String.eqb_eq in Hshown.
  change (GoTime.Format200601 (GoTime.mkTime (GoTime.Year date) (GoTime.Month date) 1))
    with (GoTime.Format200601 date) in Hshown.
  unfold View13.cellText. cbn [Nat.ltb Nat.leb].
  replace (GoTime.Year date * 100 + GoTime.Month date =? 0) with false by lia.
  cbn [negb]. by rewrite Hshown.
Qed.

Lemma X12_label_shown_as_formatted_witness :
  1000 <= GoTime.Year may2024 <= 9999
  ∧ 1 <= GoTime.Month may2024 <= 12
  ∧ View13.cellText plainRender 0 202405 = "|202405| ".
Proof.
  assert (Hy : 1000 <= GoTime.Year may2024 <= 9999) by (simpl; lia).
  assert (Hm : 1 <= GoTime.Month may2024 <= 12) by (simpl; lia).
  split; [exact Hy|]. split; [exact Hm|].
  exact (X12_label_shown_as_formatted plainRender may2024 Hy Hm).
Defined.

(** ** The reducer *)

Section UpdateRuns.
Context {TI : Type} `{TextInput TI}.

Lemma Update_err_kept (m : model TI) msg e :
  err m = Some e → ∃ e', err (fst (Update m msg)) = Some e'.
Proof.
  intros Herr. destruct msg as [key|[g [e0|]]|tag]; cbn -[String.eqb updateInput].
  - destruct (_ || _); [eauto|].
    destruct (String.eqb key "enter"); [destruct (negb _); cbn; eauto|];
      destruct (updateInput_fields m (KeyMsg key)) as (_ & _ & -> & _); eauto.
  - eauto.
  - destruct (updateInput_fields
                (mkModel g (username m) (submittedName m) (err m))
                (FetchMsg (fetchMsg.mk g None))) as (_ & _ & -> & _).
    cbn. eauto.
  - destruct (updateInput_fields m (OtherMsg tag)) as (_ & _ & -> & _). eauto.
Qed.

End UpdateRuns.

(** X13. An error is never cleared: once [err] is set, it is set after
    every further sequence of messages (a later failure may replace it), and
    [View] shows an error text and no grid for the rest of the run. *)
Theorem X13_error_is_never_cleared {TI : Type} `{TextInput TI}
    (Render : Style → string → string) (msgs : list Msg)
    (m : model TI) (p : Phase) (e : string) :
  err m = Some e →
  ∃ e', err (fst (fold_left step msgs (m, p))) = Some e'
        ∧ View12.View (fst (fold_left step msgs (m, p))) = "Error: " ++ e' ++ nl
        ∧ View13.View Render (fst (fold_left step msgs (m, p))) = "Error: " ++ e' ++ nl.
Proof.
  revert m p e. induction msgs as [|msg msgs IH]; intros m p e Herr.
  - exists e. cbn [fold_left fst]. unfold View12.View, View13.View. by rewrite Herr.
  - cbn [fold_left]. destruct (Update_err_kept m msg e Herr) as [e1 Herr1].
    assert (Hstep : step (m, p) msg
                    = (fst (Update m msg), nextPhase p msg (snd (Update m msg))))
      by (unfold step; cbn [fst snd]; by destruct (Update m msg)).
    rewrite Hstep. by apply (IH _ _ e1).
Qed.

Lemma X13_error_is_never_cleared_witness :
  err (fst (run (TI := string) 13 32 retryRun)) = Some "boom"
  ∧ ∃ e', err (fst (fold_left step [FetchMsg (fetchMsg.mk sampleGrid None); KeyMsg "c"]
                              (fst (run (TI := string) 13 32 retryRun), Fetching)))
          = Some e'
          ∧ View12.View (fst (fold_left step
                                [FetchMsg (fetchMsg.mk sampleGrid None); KeyMsg "c"]
                                (fst (run (TI := string) 13 32 retryRun), Fetching)))
            = "Error: " ++ e' ++ nl
          ∧ View13.View plainRender
              (fst (fold_left step
                      [FetchMsg (fetchMsg.mk sampleGrid None); KeyMsg "c"]
                      (fst (run (TI := string) 13 32 retryRun), Fetching)))
            = "Error: " ++ e' ++ nl.
Proof.
  split; [reflexivity|].
  exact (X13_error_is_never_cleared plainRender
           [FetchMsg (fetchMsg.mk sampleGrid None); KeyMsg "c"]
           (fst (run (TI := string) 13 32 retryRun)) Fetching "boom" eq_refl).
Defined.

(** X14. What a message can change: a key press or a message of the
    runtime never changes the grid or the error, and only the key Enter can
    change the submitted name; a fetch message never changes the submitted
    name. *)
Theorem X14_update_frame {TI : Type} `{TextInput TI} (m : model TI) (msg : Msg) :
  match msg with
  | KeyMsg key =>
      contributions (fst (Update m msg)) = contributions m
      ∧ err (fst (Update m msg)) = err m
      ∧ (String.eqb key "enter" = true
         ∨ submittedName (fst (Update m msg)) = submittedName m)
  | FetchMsg _ => submittedName (fst (Update m msg)) = submittedName m
  | OtherMsg _ =>
      contributions (fst (Update m msg)) = contributions m
      ∧ err (fst (Update m msg)) = err m
      ∧ submittedName (fst (Update m msg)) = submittedName m
  end.
Proof.
  destruct msg as [key|[g [e|]]|tag]; cbn -[String.eqb updateInput].
  - destruct (_ || _); [auto|].
    destruct (String.eqb key "enter") eqn:Henter.
    + destruct (negb _); cbn -[updateInput]; [auto|].
      destruct (updateInput_fields m (KeyMsg key)) as (-> & _ & -> & _). auto.
    + destruct (updateInput_fields m (KeyMsg key)) as (-> & -> & -> & _). auto.
  - reflexivity.
  - by destruct (updateInput_fields
                   (mkModel g (username m) (submittedName m) (err m))
                   (FetchMsg (fetchMsg.mk g None))) as (_ & -> & _).
  - destruct (updateInput_fields m (OtherMsg tag)) as (-> & -> & -> & _). auto.
Qed.



(** ** Empty months *)

Lemma lastWrite_None {A : Type} (target : A → option (Z * Z)) (value : A → Z) xs i j :
  lastWrite target value xs i j = None ↔ ∀ x, In x xs → target x ≠ Some (i, j).
Proof.
  induction xs as [|x xs IH]; cbn [lastWrite].
  - split; [intros _ y []|done].
  - destruct (lastWrite target value xs i j) as [v|].
    + split; [discriminate|]. intros Hnone.
      assert (Hxs : ∀ y, In y xs → target y ≠ Some (i, j))
        by (intros y Hy; apply Hnone; by right).
      apply IH in Hxs. discriminate.
    + destruct IH as [IH _]. specialize (IH eq_refl).
      destruct (target x) as [[i' j']|] eqn:Hx.
      * destruct ((i' =? i) && (j' =? j)) eqn:Hhit.
        -- split; [discriminate|]. intros Hnone. exfalso.
           apply (Hnone x (or_introl eq_refl)). rewrite Hx. f_equal. f_equal; lia.
        -- split; [|done]. intros _ y [<-|Hy]; [|by apply IH].
           rewrite Hx. intros [= -> ->]. lia.
      * split; [|done]. intros _ y [<-|Hy]; [|by apply IH]. by rewrite Hx.
Qed.

(** X16. In the grid the later revisions build, the label of a row is 0,
    which [View] renders as a blank label, exactly when no sample of the
    reply falls into the month of that row. *)
Theorem X16_blank_label_iff_empty_month (Render : Style → string → string)
    (startDate : GoTime.Time) (weeks : list week) (g : Grid) (i : Z) :
  Rev13.fillContributions startDate weeks = Next g →
  0 <= i < 13 →
  (cell g i 0 = Some 0
   ↔ ∀ day date, In day (daysOf weeks) → GoTime.Parse (Date day) = Ok date →
                 Rev13.monthIndexOf startDate date ≠ i)
  ∧ (cell g i 0 = Some 0 → View13.cellText Render 0 (at_ g (Z.to_nat i) 0) = "|      | ").
Proof.
  intros Hfill Hi.
  pose proof Hfill as Hrun.
  unfold Rev13.fillContributions in Hrun. rewrite range_weeks in Hrun.
  destruct (Rev13_label_writes startDate _ _ g (zeroGrid_wf _ _) Hrun) as [_ Hlabel].
  specialize (Hlabel i 0 eq_refl).
  rewrite zeroGrid_cell in Hlabel by (unfold Rev13.numMonths, Rev13.numDays; lia).
  split.
  - split.
    + intros Hzero day date Hday Hparse Hrow.
      assert (Hin : 0 <= Rev13.monthIndexOf startDate date < 13) by lia.
      pose proof (Rev13_labels startDate (daysOf weeks) _ g (zeroGrid_wf _ _) Hrun
                    day date Hday Hparse Hin) as Hcell.
      rewrite Hrow, Hzero in Hcell.
      destruct (Parse_range _ _ Hparse) as (Hy & Hm & _).
      injection Hcell as Hcell. lia.
    + intros Hnone. rewrite Hlabel.
      replace (lastWrite (labelTarget13 startDate) yearMonthOf (daysOf weeks) i 0)
        with (@None Z); [reflexivity|].
      symmetry. apply lastWrite_None. intros day Hday Htarget.
      unfold labelTarget13 in Htarget.
      destruct (row13 startDate day) as [[mi date]|] eqn:Hrow; [|discriminate].
      injection Htarget as ->.
      apply row13_parsed in Hrow as (Hparse & Hmi & _).
      by apply (Hnone day date Hday Hparse).
  - intros Hzero. change 0%nat with (Z.to_nat 0).
    by rewrite (at_cell g i 0 0 ltac:(lia) ltac:(lia) Hzero).
Qed.

Lemma X16_blank_label_iff_empty_month_witness :
  Rev13.fillContributions (GoTime.AddDateMinusOneYear may2024) sampleWeeks
  = Next sampleGrid_labelled
  ∧ 0 <= 1 < 13
  ∧ (cell sampleGrid_labelled 1 0 = Some 0
     → View13.cellText plainRender 0 (at_ sampleGrid_labelled (Z.to_nat 1) 0)
       = "|      | ").
Proof.
  assert (Hi : 0 <= 1 < 13) by lia.
  split; [reflexivity|]. split; [exact Hi|].
  exact (proj2 (X16_blank_label_iff_empty_month plainRender
                  (GoTime.AddDateMinusOneYear may2024) sampleWeeks
                  sampleGrid_labelled 1 eq_refl Hi)).
Defined.

(** ** Alignment of [main.go]'s view *)

Lemma string_length_app (s1 s2 : string) :
  String.length (s1 ++ s2) = (String.length s1 + String.length s2)%nat.
Proof. induction s1 as [|c s1 IH]; cbn; [reflexivity|]. by rewrite IH. Qed.

Lemma string_concat_length (k : nat) (pieces : list string) :
  (∀ piece, In piece pieces → String.length piece = k) →
  String.length (String.concat "" pieces) = (k * length pieces)%nat.
Proof.
  induction pieces as [|piece pieces IH]; intros Hall; [cbn; lia|].
  assert (Hhead : String.length piece = k) by (apply Hall; by left).
  assert (Htail : String.length (String.concat "" pieces) = (k * length pieces)%nat)
    by (apply IH; intros q Hq; apply Hall; by right).
  destruct pieces as [|next pieces]; [cbn in *; lia|].
  change (String.concat "" (piece :: next :: pieces))
    with (piece ++ "" ++ String.concat "" (next :: pieces)).
  rewrite !string_length_app, Htail, Hhead. cbn [String.length length]. lia.
Qed.

Lemma cellFive_all : allFrom 100 0 cellFive = true.
Proof. vm_compute. reflexivity. Qed.

(** X17. [main.go]'s view keeps its columns aligned while every count of a
    row is below 100: each cell is then five characters wide and the row
    156 characters long. [%2d] does not cut longer numerals: a count of 100
    makes its cell six characters wide. *)
Theorem X17_rev12_rows_aligned (g : Grid) (month : nat) :
  (∀ day, (day < 31)%nat → 0 <= at_ g month day <= 99) →
  String.length (View12.rowText g month) = 156%nat
  ∧ String.length (View12.cellText 100) = 6%nat.
Proof.
  intros Hsmall. split; [|reflexivity].
  unfold View12.rowText. rewrite string_length_app.
  rewrite (string_concat_length 5).
  - rewrite length_map, length_seq. reflexivity.
  - intros piece (day & <- & Hday)%in_map_iff.
    apply in_seq in Hday. unfold Rev12.numDays in Hday.
    specialize (Hsmall day ltac:(lia)).
    pose proof (allFrom_spec _ _ _ cellFive_all (at_ g month day) ltac:(lia)) as Hfive.
    unfold cellFive in Hfive. by apply Nat.eqb_eq in Hfive.
Qed.

Lemma X17_rev12_rows_aligned_witness :
  (∀ day, (day < 31)%nat → 0 <= at_ collidedGrid 4 day <= 99)
  ∧ String.length (View12.rowText collidedGrid 4) = 156%nat.
Proof.
  assert (Hsmall : ∀ day, (day < 31)%nat → 0 <= at_ collidedGrid 4 day <= 99).
  { intros day Hday.
    do 31 (destruct day as [|day]; [vm_compute; split; discriminate|]). lia. }
  split; [exact Hsmall|].
  exact (proj1 (X17_rev12_rows_aligned collidedGrid 4 Hsmall)).
Defined.
